(** * The Docker engine of codapi ([internal/engine/docker.go])

    A shallow embedding of the engine that runs one sandbox command as a
    pipeline of [docker run] / [docker exec] steps, and the properties of its
    pipeline controller, step executor, argument builder, file stager and
    outcome classification.

    Strings are [string], Go [int] values are [Z] (no arithmetic is done on
    them), slices are lists.  Everything the engine does to the outside world
    (temp directory, file helpers, the process invoker, the detached
    [docker kill]) is recorded, in order, in a trace of events; what the
    outside world answers is given by an environment that may depend on the
    whole history.  Logging ([logx]) is left out. *)

From Stdlib Require Import String Ascii List ZArith Bool Lia.
From Stdlib Require Import DecimalString Permutation.
Import ListNotations.

Local Open Scope string_scope.
Local Open Scope list_scope.

(** ** Configuration ([internal/config], consumed read-only)

    The struct declarations live outside this file; the records list the
    fields that [docker.go] reads, with the types it uses them at. *)

Module Box.
Record t : Type := mk {
  Image : string;
  Runtime : string;
  CPU : Z;
  Memory : Z;
  Network : string;
  NProc : Z;
  Writable : bool;
  Storage : string;
  Volume : string;
  Tmpfs : list string;
  CapAdd : list string;
  CapDrop : list string;
  Ulimit : list string;
  Versions : list string;
  Files : list string
}.
End Box.

Module Step.
Record t : Type := mk {
  Box : string;
  User : string;
  Action : string;
  Version : string;
  Stdin : bool;
  Command : list string;
  Timeout : Z;
  NOutput : Z
}.
End Step.

Module Command.
(** [Before] and [After] are [*config.Step] pointers that may be nil;
    [Steps] is the slice of (non-nil) run steps. *)
Record t : Type := mk {
  Entry : string;
  Before : option Step.t;
  Steps : list Step.t;
  After : option Step.t
}.
End Command.

Module Config.
(** [Boxes] is a Go map from box name to [*config.Box]; a missing key
    reads as the nil pointer. *)
Record t : Type := mk {
  Boxes : string -> option Box.t
}.
End Config.

(** ** Requests, files, errors and executions ([engine] package) *)

(** The [Files] type is declared outside [docker.go].  The file ranges over
    it with a string as the second variable, its [Range] hands a name and a
    content to the callback, and [nil] is passed for it: it is a Go map from
    file name to content, and the language leaves the order of an iteration
    over a map open.  A value of [Files] is the entries of the map in the
    order in which one iteration yields them; two iterations over the same
    map are two such values, each a permutation of the other (see
    [iteration] below).  [Exec] hands one value to [writeFiles] and to the
    first run step, so properties that compare the order of two traversals
    are stated for separate iterations, not through [Exec]. *)
Definition Files : Type := list (string * string).

Module Request.
Record t : Type := mk {
  ID : string;
  Version : string;
  Files : Files
}.
End Request.

(** An error value produced outside the engine (by the operating system, the
    file helpers or the process invoker).  The engine observes two things of
    it: its [Error()] text and whether [errors.As] finds an
    [*exec.ExitError] in it. *)
Module ext.
Record error : Type := mk {
  Error : string;
  AsExitError : bool
}.
End ext.

(** Error values the engine itself returns.  [ErrTimeout] is the package's
    sentinel; [ExecutionError] is what [NewExecutionError] builds (a stage
    label around an inner error); [errorString] is what [fmt.Errorf] builds
    from a format without [%w]. *)
Inductive error : Type :=
| ErrTimeout
| ExecutionError (msg : string) (inner : error)
| errorString (text : string)
| External (e : ext.error).

Definition NewExecutionError (msg : string) (err : error) : error :=
  ExecutionError msg err.

(** The type test that tells an infrastructure failure from the others. *)
Definition isExecutionError (err : error) : bool :=
  match err with
  | ExecutionError _ _ => true
  | _ => false
  end.

Module Execution.
Record t : Type := mk {
  ID : string;
  OK : bool;
  Stdout : string;
  Stderr : string;
  Err : option error
}.
End Execution.

(** ** Pure helpers *)

Definition actionRun : string := "run".
Definition actionExec : string := "exec".

(** [strconv.Itoa]: decimal text of an integer. *)
Definition Itoa (n : Z) : string := NilZero.string_of_int (Z.to_int n).

(** [slices.Contains] on strings. *)
Definition Contains (xs : list string) (x : string) : bool :=
  existsb (String.eqb x) xs.

(** [strings.Replace(s, old, new, 1)]: the first occurrence of [old] is
    replaced. *)
Fixpoint Replace1 (s old new : string) : string :=
  if String.prefix old s then
    (new ++ substring (String.length old) (String.length s - String.length old) s)%string
  else
    match s with
    | EmptyString => EmptyString
    | String c s' => String c (Replace1 s' old new)
    end.

(** [expandVars] replaces variables in command arguments with values.
    The only supported variable is [:name] = container name. *)
Definition expandVars (command : list string) (name : string) : list string :=
  map (fun cmd => Replace1 cmd ":name" name) command.

(** [filesReader]: the text of the reader over an in-memory collection of
    files; a [strings.Builder] that receives each content in turn, in the
    order in which its own iteration over the map yields them (the order of
    the list it is given). *)
Definition filesReader (files : Files) : string :=
  fold_left (fun input f => (input ++ snd f)%string) files "".

(** [for _, x := range xs { args = append(args, flag, x) }] *)
Definition flagged (flag : string) (xs : list string) : list string :=
  flat_map (fun x => [flag; x]) xs.

(** [dockerExecArgs] prepares the arguments for the [docker exec] command. *)
Definition dockerExecArgs (step : Step.t) : list string :=
  [actionExec; "--interactive"; "--user"; Step.User step; Step.Box step].

(** ** Effects

    One event per call that leaves the engine:
    - [EvMkdirTemp]: [os.MkdirTemp("", "")];
    - [EvRemoveAll dir]: [os.RemoveAll(dir)];
    - [EvWriteFile path content perm]: [fileio.WriteFile(path, content, perm)];
    - [EvCopyFiles pattern dir]: [fileio.CopyFiles(pattern, dir)];
    - [EvRun timeout nOutput stdin id name args]: the process invoker,
      [NewProgram(timeout, nOutput).Run(id, name, args...)], or
      [RunStdin(stdin, id, name, args...)] when [stdin] is given;
    - [EvGo name args]: a goroutine is started that runs the command
      [name args...] through [execy.Run] and only logs how it ended. *)
Inductive event : Type :=
| EvMkdirTemp
| EvRemoveAll (dir : string)
| EvWriteFile (path content : string) (perm : Z)
| EvCopyFiles (pattern dir : string)
| EvRun (timeout nOutput : Z) (stdin : option string) (id name : string)
    (args : list string)
| EvGo (name : string) (args : list string).

Definition trace : Type := list event.

(** The outside world.  Every answer may depend on the history of calls
    made so far. *)
Record World : Type := mkWorld {
  (** [fmt.Sprintf(box.Volume, dir)]: the format string comes from the
      configuration. *)
  Sprintf : string -> string -> string;
  (** [filepath.Join(dir, name)] *)
  Join : string -> string -> string;
  MkdirTemp : trace -> string * option ext.error;
  WriteFile : trace -> string -> string -> Z -> option ext.error;
  CopyFiles : trace -> string -> string -> option ext.error;
  (** The process invoker ([Program]): captured stdout, captured stderr and
      the raw error. *)
  Run : trace -> Z -> Z -> option string -> string -> string -> list string ->
        string * string * option ext.error;
  (** [Fail(id, err)] creates the execution that reports an error; it is
      declared in the engine package outside [docker.go]. *)
  Fail : string -> error -> Execution.t
}.

(** A computation reads and extends the trace, and either returns or
    panics (slice bounds out of range, nil pointer dereference). *)
Inductive result (A : Type) : Type :=
| Ret (a : A)
| Panic (msg : string).
Arguments Ret {A} a.
Arguments Panic {A} msg.

Definition M (A : Type) : Type := trace -> result A * trace.

Definition ret {A} (a : A) : M A := fun t => (Ret a, t).

Definition panic {A} (msg : string) : M A := fun t => (Panic msg, t).

Definition bind {A B} (m : M A) (k : A -> M B) : M B :=
  fun t =>
    match m t with
    | (Ret a, t') => k a t'
    | (Panic msg, t') => (Panic msg, t')
    end.

(** [defer cleanup; body]: the deferred call runs on every way out of
    [body], a panic included. *)
Definition defer {A} (cleanup : M unit) (body : M A) : M A :=
  fun t => let (r, t') := body t in (r, snd (cleanup t')).

(** A call to the outside world: the answer is computed from the history,
    then the call is recorded. *)
Definition call {A} (answer : trace -> A) (ev : event) : M A :=
  fun t => (Ret (answer t), t ++ [ev]).

Notation "x <- m ;; k" := (bind m (fun x => k))
  (at level 61, m at next level, right associativity).
Notation "' pat <- m ;; k" := (bind m (fun x => match x with pat => k end))
  (at level 61, pat pattern, m at next level, right associativity).

(** Modelled from the spec: the [Range] method of [Files] is declared
    outside [docker.go].  [files.Range(fn)] calls [fn] for each file, in the
    order in which the iteration yields them (the order of the list), until
    [fn] returns false; [a] is the state the closure [fn] captures. *)
Fixpoint Range {A} (files : Files) (fn : string -> string -> A -> M (A * bool))
    (a : A) : M A :=
  match files with
  | [] => ret a
  | (name, content) :: files' =>
      '(a', ok) <- fn name content a ;;
      if ok then Range files' fn a' else ret a'
  end.

(** A Docker engine executes a specific sandbox command using Docker [run]
    or [exec] actions. *)
Module Docker.
Record t : Type := mk {
  cfg : Config.t;
  cmd : Command.t
}.
End Docker.

Definition killed : string := "signal: killed".

Section Engine.

Variable W : World.

(** [dockerRunArgs] prepares the arguments for the [docker run] command. *)
Definition dockerRunArgs (box : Box.t) (step : Step.t) (req : Request.t)
    (dir : string) : list string :=
  let args :=
    [ actionRun; "--rm";
      "--name"; Request.ID req;
      "--runtime"; Box.Runtime box;
      "--cpus"; Itoa (Box.CPU box);
      "--memory"; (Itoa (Box.Memory box) ++ "m")%string;
      "--network"; Box.Network box;
      "--pids-limit"; Itoa (Box.NProc box);
      "--user"; Step.User step ] in
  let args := if negb (Box.Writable box) then args ++ ["--read-only"] else args in
  let args := if Step.Stdin step then args ++ ["--interactive"] else args in
  let args :=
    if negb (Box.Storage box =? "")
    then args ++ ["--storage-opt"; ("size=" ++ Box.Storage box)%string] else args in
  let args :=
    if negb (dir =? "")
    then args ++ ["--volume"; Sprintf W (Box.Volume box) dir] else args in
  let args := args ++ flagged "--tmpfs" (Box.Tmpfs box) in
  let args := args ++ flagged "--cap-add" (Box.CapAdd box) in
  let args := args ++ flagged "--cap-drop" (Box.CapDrop box) in
  let args := args ++ flagged "--ulimit" (Box.Ulimit box) in
  if negb (Step.Version step =? "") then
    (* if the version is set in the step config, use it *)
    args ++ [(Box.Image box ++ ":" ++ Step.Version step)%string]
  else if negb (Request.Version req =? "") then
    (* if the version is set in the request, use it *)
    args ++ [(Box.Image box ++ ":" ++ Request.Version req)%string]
  else
    (* otherwise, use the latest version *)
    args ++ [Box.Image box].

(** [buildArgs] prepares the arguments for the [docker] command.  The box
    is a pointer that [docker run] dereferences. *)
Definition buildArgs (box : option Box.t) (step : Step.t) (req : Request.t)
    (dir : string) : M (list string) :=
  args <-
    (if Step.Action step =? actionRun then
       match box with
       | Some b => ret (dockerRunArgs b step req dir)
       | None => panic "nil pointer dereference"
       end
     else if Step.Action step =? actionExec then
       ret (dockerExecArgs step)
     else
       (* should never happen if the config is valid *)
       ret ["version"]) ;;
  let command := expandVars (Step.Command step) (Request.ID req) in
  ret (args ++ command).

(** [dockerKill] kills the container with the specified id/name: the
    command it hands to [execy.Run]. *)
Definition dockerKill (id : string) : string * list string :=
  ("docker", ["kill"; id]).

(** [validateVersion]: if the version is set in the step config, use it;
    if the version isn't set in the request, use the latest one;
    otherwise, check that the version in the request is supported
    according to the box config. *)
Definition validateVersion (box : option Box.t) (step : Step.t)
    (req : Request.t) : M (option error) :=
  if (Step.Version step =? "") && negb (Request.Version req =? "") then
    match box with
    | None => panic "nil pointer dereference"
    | Some b =>
        if negb (Contains (Box.Versions b) (Request.Version req)) then
          ret (Some (errorString
                 ("box " ++ Step.Box step ++ " does not support version "
                  ++ Request.Version req)%string))
        else ret None
    end
  else ret None.

(** The loop of [copyFiles]. *)
Fixpoint copyPatterns (patterns : list string) (dir : string)
    : M (option ext.error) :=
  match patterns with
  | [] => ret None
  | pattern :: patterns' =>
      err <- call (fun t => CopyFiles W t pattern dir) (EvCopyFiles pattern dir) ;;
      match err with
      | Some err => ret (Some err)
      | None => copyPatterns patterns' dir
      end
  end.

(** [copyFiles] copies box files to the temporary directory. *)
Definition copyFiles (box : option Box.t) (dir : string) : M (option ext.error) :=
  match box with
  | None => ret None
  | Some b =>
      if (List.length (Box.Files b) =? 0)%nat then ret None
      else copyPatterns (Box.Files b) dir
  end.

(** [writeFiles] writes request files to the temporary directory. *)
Definition writeFiles (e : Docker.t) (dir : string) (files : Files)
    : M (option ext.error) :=
  Range files
    (fun name content _ =>
       let name := if name =? "" then Command.Entry (Docker.cmd e) else name in
       let path := Join W dir name in
       err <- call (fun t => WriteFile W t path content 292) (EvWriteFile path content 292) ;;
       ret (err, match err with None => true | Some _ => false end))
    None.

(** [exec] executes the step in the docker container using the files from
    the temporary directory. *)
Definition exec (box : option Box.t) (step : Step.t) (req : Request.t)
    (dir : string) (files : Files) : M (string * string * option error) :=
  args <- buildArgs box step req dir ;;
  '(stdout, stderr, err) <-
    (let stdin := if Step.Stdin step then Some (filesReader files) else None in
     call (fun t => Run W t (Step.Timeout step) (Step.NOutput step) stdin
                        (Request.ID req) "docker" args)
          (EvRun (Step.Timeout step) (Step.NOutput step) stdin
                 (Request.ID req) "docker" args)) ;;
  match err with
  | None =>
      (* success *)
      ret (stdout, stderr, None)
  | Some err =>
      if ext.Error err =? killed then
        _ <- (if Step.Action step =? actionRun then
                let (name, kargs) := dockerKill (Request.ID req) in
                call (fun _ => tt) (EvGo name kargs)
              else ret tt) ;;
        (* context timeout *)
        ret (stdout, stderr, Some ErrTimeout)
      else if ext.AsExitError err then
        (* the problem (if any) is the code, not the execution *)
        let stderr := (stdout ++ stderr)%string in
        let stdout := "" in
        if negb (stderr =? "") then
          ret (stdout, stderr,
               Some (errorString (stderr ++ " (" ++ ext.Error err ++ ")")%string))
        else ret (stdout, stderr, Some (External err))
      else
        (* other execution error *)
        ret (stdout, stderr, Some (NewExecutionError "execute code" (External err)))
  end.

(** [execStep] executes a step using the docker container. *)
Definition execStep (e : Docker.t) (step : Step.t) (req : Request.t)
    (dir : string) (files : Files) : M Execution.t :=
  let box := Config.Boxes (Docker.cfg e) (Step.Box step) in
  err <- validateVersion box step req ;;
  match err with
  | Some err => ret (Fail W (Request.ID req) err)
  | None =>
      err <- copyFiles box dir ;;
      match err with
      | Some err =>
          ret (Fail W (Request.ID req)
                 (NewExecutionError "copy files to temp dir" (External err)))
      | None =>
          '(stdout, stderr, err) <- exec box step req dir files ;;
          match err with
          | Some err => ret (Fail W (Request.ID req) err)
          | None =>
              ret {| Execution.ID := Request.ID req;
                     Execution.OK := true;
                     Execution.Stdout := stdout;
                     Execution.Stderr := stderr;
                     Execution.Err := None |}
          end
      end
  end.

(** *** [Exec], from the inside out *)

(** The loop over the optional run steps: each step operates on the
    results of the previous one, without the source files. *)
Fixpoint execRest (e : Docker.t) (req : Request.t) (dir : string)
    (rest : list Step.t) (out : Execution.t) : M Execution.t :=
  match rest with
  | [] => ret out
  | step :: rest' =>
      out <- execStep e step req dir [] ;;
      if negb (Execution.OK out) then ret out
      else execRest e req dir rest' out
  end.

(** The run steps: the first step is required, the rest are optional.
    On an empty slice [e.cmd.Steps[0], e.cmd.Steps[1:]] panics, and the
    panic the program shows is the one of the slice expression. *)
Definition runSteps (e : Docker.t) (req : Request.t) (dir : string)
    : M Execution.t :=
  match Command.Steps (Docker.cmd e) with
  | [] => panic "slice bounds out of range [1:0]"
  | first :: rest =>
      out <- execStep e first req dir (Request.Files req) ;;
      if Execution.OK out && (0 <? List.length rest)%nat
      then execRest e req dir rest out
      else ret out
  end.

(** The cleanup step and the choice of the result. *)
Definition cleanup (e : Docker.t) (req : Request.t) (dir : string)
    (out : Execution.t) : M Execution.t :=
  match Command.After (Docker.cmd e) with
  | Some after =>
      afterOut <- execStep e after req dir [] ;;
      if Execution.OK out && negb (Execution.OK afterOut)
      then ret afterOut
      else ret out
  | None => ret out
  end.

(** Everything from the initialization step on. *)
Definition pipeline (e : Docker.t) (req : Request.t) (dir : string)
    : M Execution.t :=
  match Command.Before (Docker.cmd e) with
  | Some before =>
      out <- execStep e before req dir [] ;;
      if negb (Execution.OK out) then ret out
      else (out <- runSteps e req dir ;; cleanup e req dir out)
  | None =>
      out <- runSteps e req dir ;; cleanup e req dir out
  end.

(** Storing the request files: if the command entry point file is not
    defined, there is no need to store request files in the temp
    directory. *)
Definition stage (e : Docker.t) (req : Request.t) (dir : string)
    : M (option ext.error) :=
  if negb (Command.Entry (Docker.cmd e) =? "")
  then writeFiles e dir (Request.Files req)
  else ret None.

(** [Exec] executes the command and returns the output. *)
Definition Exec (e : Docker.t) (req : Request.t) : M Execution.t :=
  '(dir, err) <- call (MkdirTemp W) EvMkdirTemp ;;
  match err with
  | Some err =>
      ret (Fail W (Request.ID req)
             (NewExecutionError "create temp dir" (External err)))
  | None =>
      defer (call (fun _ => tt) (EvRemoveAll dir))
        (err <- stage e req dir ;;
         match err with
         | Some err =>
             ret (Fail W (Request.ID req)
                    (NewExecutionError "write files to temp dir" (External err)))
         | None => pipeline e req dir
         end)
  end.

End Engine.

(** ** Reading traces *)

Definition isWrite (ev : event) : bool :=
  match ev with EvWriteFile _ _ _ => true | _ => false end.


Definition isRun (ev : event) : bool :=
  match ev with EvRun _ _ _ _ _ _ => true | _ => false end.

Definition isGo (ev : event) : bool :=
  match ev with EvGo _ _ => true | _ => false end.

(** The paths of the [fileio.WriteFile] calls of a trace, in order. *)
Fixpoint writtenPaths (tr : trace) : list string :=
  match tr with
  | [] => []
  | EvWriteFile path _ _ :: tr' => path :: writtenPaths tr'
  | _ :: tr' => writtenPaths tr'
  end.


(** [emits Q m]: whatever the history, [m] only appends events, and every
    event it appends satisfies [Q]. *)
Definition emits {A} (Q : event -> Prop) (m : M A) : Prop :=
  forall t, exists new, snd (m t) = t ++ new /\ Forall Q new.

Definition notWrite (ev : event) : Prop := isWrite ev = false.
Definition onlyWrite (ev : event) : Prop := isWrite ev = true.

(** The name a request file is stored under, and the call that stores it. *)
Definition stagedName (e : Docker.t) (name : string) : string :=
  if name =? "" then Command.Entry (Docker.cmd e) else name.

Definition stagedPath (W : World) (e : Docker.t) (dir : string)
    (f : string * string) : string :=
  Join W dir (stagedName e (fst f)).

Definition stagedEvent (W : World) (e : Docker.t) (dir : string)
    (f : string * string) : event :=
  EvWriteFile (stagedPath W e dir f) (snd f) 292.

(** The image reference by priority: step-pinned version, then the
    request's version, then the untagged image. *)
Definition imageRef (box : Box.t) (step : Step.t) (req : Request.t) : string :=
  if negb (Step.Version step =? "") then
    (Box.Image box ++ ":" ++ Step.Version step)%string
  else if negb (Request.Version req =? "") then
    (Box.Image box ++ ":" ++ Request.Version req)%string
  else Box.Image box.

Definition withWritable (w : bool) (box : Box.t) : Box.t :=
  Box.mk (Box.Image box) (Box.Runtime box) (Box.CPU box) (Box.Memory box)
    (Box.Network box) (Box.NProc box) w (Box.Storage box) (Box.Volume box)
    (Box.Tmpfs box) (Box.CapAdd box) (Box.CapDrop box) (Box.Ulimit box)
    (Box.Versions box) (Box.Files box).

(** The strings that configuration and request put into a [docker run]
    argument list as they are. *)
Definition runValues (W : World) (box : Box.t) (step : Step.t)
    (req : Request.t) (dir : string) : list string :=
  [ Request.ID req; Box.Runtime box; Box.Network box; Step.User step;
    Sprintf W (Box.Volume box) dir; imageRef box step req ]
  ++ Box.Tmpfs box ++ Box.CapAdd box ++ Box.CapDrop box ++ Box.Ulimit box.

(** What [exec] hands to the process invoker as standard input. *)
Definition stdinOf (step : Step.t) (files : Files) : option string :=
  if Step.Stdin step then Some (filesReader files) else None.

(** The call of the process invoker made by [exec] for a step. *)
Definition runEvent (step : Step.t) (req : Request.t) (files : Files)
    (args : list string) : event :=
  EvRun (Step.Timeout step) (Step.NOutput step) (stdinOf step files)
    (Request.ID req) "docker" args.

(** What the process invoker answers to that call after history [t]. *)
Definition runAnswer (W : World) (t : trace) (step : Step.t) (req : Request.t)
    (files : Files) (args : list string) : string * string * option ext.error :=
  Run W t (Step.Timeout step) (Step.NOutput step) (stdinOf step files)
    (Request.ID req) "docker" args.

(** The run steps that [runSteps] executes, each with its outcome, in
    order: the loops of [execRest] and [runSteps], keeping every outcome
    instead of the last one only. *)
Fixpoint restLog (W : World) (e : Docker.t) (req : Request.t) (dir : string)
    (rest : list Step.t) : M (list (Step.t * Execution.t)) :=
  match rest with
  | [] => ret []
  | step :: rest' =>
      out <- execStep W e step req dir [] ;;
      if negb (Execution.OK out) then ret [(step, out)]
      else (log <- restLog W e req dir rest' ;; ret ((step, out) :: log))
  end.

Definition runLog (W : World) (e : Docker.t) (req : Request.t) (dir : string)
    : M (list (Step.t * Execution.t)) :=
  match Command.Steps (Docker.cmd e) with
  | [] => panic "slice bounds out of range [1:0]"
  | first :: rest =>
      out <- execStep W e first req dir (Request.Files req) ;;
      if Execution.OK out && (0 <? List.length rest)%nat
      then (log <- restLog W e req dir rest ;; ret ((first, out) :: log))
      else ret [(first, out)]
  end.

(** The setup step, if there is one, ran from history [t1] to history [t1']
    and succeeded. *)
Definition setupPassed (W : World) (e : Docker.t) (req : Request.t)
    (dir : string) (t1 t1' : trace) : Prop :=
  match Command.Before (Docker.cmd e) with
  | None => t1' = t1
  | Some before =>
      exists out,
        execStep W e before req dir [] t1 = (Ret out, t1')
        /\ Execution.OK out = true
  end.

Definition succeeded (so : Step.t * Execution.t) : Prop :=
  Execution.OK (snd so) = true.

(** ** What the engine may do

    The events a step of request [req] may append when it works in the
    directory [dir]: copies into [dir], runs of [docker] under the request's
    identifier, and the detached [docker kill] of that identifier. *)
Definition stepEvent (req : Request.t) (dir : string) (ev : event) : Prop :=
  match ev with
  | EvCopyFiles _ d => d = dir
  | EvRun _ _ _ id name _ => id = Request.ID req /\ name = "docker"
  | EvGo name args => name = "docker" /\ args = ["kill"; Request.ID req]
  | _ => False
  end.

(** The events [writeFiles] may append for the files [files]: a read-only
    (mode 0444) write of one of the files at its staged path, the path that
    [filepath.Join] gives for the directory and the file's name. *)
Definition stageEvent (W : World) (e : Docker.t) (files : Files) (dir : string)
    (ev : event) : Prop :=
  exists f, In f files /\ ev = stagedEvent W e dir f.

(** The events of a whole [Exec] between the creation and the removal of
    the directory [dir]. *)
Definition workEvent (W : World) (e : Docker.t) (req : Request.t) (dir : string)
    (ev : event) : Prop :=
  stageEvent W e (Request.Files req) dir ev \/ stepEvent req dir ev.

Definition isRemoveAll (ev : event) : bool :=
  match ev with EvRemoveAll _ => true | _ => false end.

Definition isMkdirTemp (ev : event) : bool :=
  match ev with EvMkdirTemp => true | _ => false end.

(** What [fileio.WriteFile] answers to the write of the [k]-th file of
    [files], made after the writes of the files before it. *)
Definition writeAnswer (W : World) (e : Docker.t) (dir : string) (files : Files)
    (t : trace) (k : nat) : option ext.error :=
  match nth_error files k with
  | Some f =>
      WriteFile W (t ++ map (stagedEvent W e dir) (firstn k files))
        (stagedPath W e dir f) (snd f) 292
  | None => None
  end.

(** What [fileio.CopyFiles] answers to the copy of the [k]-th pattern of
    [patterns], made after the copies of the patterns before it. *)
Definition copyEvent (dir pattern : string) : event := EvCopyFiles pattern dir.

Definition copyAnswer (W : World) (dir : string) (patterns : list string)
    (t : trace) (k : nat) : option ext.error :=
  match nth_error patterns k with
  | Some pattern =>
      CopyFiles W (t ++ map (copyEvent dir) (firstn k patterns)) pattern dir
  | None => None
  end.

(** The same request asking for another version. *)
Definition withVersion (version : string) (req : Request.t) : Request.t :=
  Request.mk (Request.ID req) version (Request.Files req).

(** A step refers to a box that the configuration declares. *)
Definition declared (e : Docker.t) (step : Step.t) : Prop :=
  Config.Boxes (Docker.cfg e) (Step.Box step) <> None.

(** The steps of a command: setup, run steps, cleanup. *)
Definition allSteps (e : Docker.t) : list Step.t :=
  match Command.Before (Docker.cmd e) with Some s => [s] | None => [] end
  ++ Command.Steps (Docker.cmd e)
  ++ match Command.After (Docker.cmd e) with Some s => [s] | None => [] end.

(** [s] without its first [k] characters. *)
Fixpoint drop (k : nat) (s : string) : string :=
  match k, s with
  | 0, _ => s
  | S k', String _ s' => drop k' s'
  | S _, EmptyString => EmptyString
  end.




(** * A concrete installation

    One world and a few configurations, used to run the engine on concrete
    requests. *)

(** Modelled from the spec: [Fail] is declared in the engine package outside
    [docker.go].  By the spec's data model an execution holds the
    originating identifier, a success flag, the captured stdout and stderr
    and, on failure, a typed error; the execution made from an error has the
    flag off, no output, and the error. *)
Definition Fail_spec (id : string) (err : error) : Execution.t :=
  {| Execution.ID := id;
     Execution.OK := false;
     Execution.Stdout := "";
     Execution.Stderr := "";
     Execution.Err := Some err |}.

(** [filepath.Join] of a clean directory and a plain file name. *)
Definition Join_plain (dir name : string) : string :=
  (dir ++ "/" ++ name)%string.

(** [fmt.Sprintf] of a format whose only verb is one [%s]. *)
Definition Sprintf_s (format dir : string) : string :=
  Replace1 format "%s" dir.

Definition exitStatus1 : ext.error :=
  {| ext.Error := "exit status 1"; ext.AsExitError := true |}.

(** What [exec.Cmd] reports of a process stopped by SIGKILL. *)
Definition signalKilled : ext.error :=
  {| ext.Error := "signal: killed"; ext.AsExitError := true |}.

(** A process invoker scripted by the command line it is given. *)
Definition scripted (t : trace) (timeout nOutput : Z) (stdin : option string)
    (id name : string) (args : list string)
    : string * string * option ext.error :=
  if Contains args "sleep" then ("", "", Some signalKilled)
  else if Contains args "boom" then ("", "boom", Some exitStatus1)
  else if Contains args "false" then ("", "", Some exitStatus1)
  else ("ok", "", None).

Definition world : World :=
  {| Sprintf := Sprintf_s;
     Join := Join_plain;
     MkdirTemp := fun _ => ("/tmp/codapi", None);
     WriteFile := fun _ _ _ _ => None;
     CopyFiles := fun _ _ _ => None;
     Run := scripted;
     Fail := Fail_spec |}.

Definition python : Box.t :=
  {| Box.Image := "codapi/python";
     Box.Runtime := "runc";
     Box.CPU := 1;
     Box.Memory := 64;
     Box.Network := "none";
     Box.NProc := 64;
     Box.Writable := false;
     Box.Storage := "";
     Box.Volume := "%s:/sandbox:ro";
     Box.Tmpfs := ["/tmp:rw,size=16m"];
     Box.CapAdd := [];
     Box.CapDrop := ["all"];
     Box.Ulimit := ["nofile=96"];
     Box.Versions := ["1.0"; "2.0"];
     Box.Files := ["/opt/codapi/python/*"] |}.

Definition boxes : Config.t :=
  {| Config.Boxes := fun name => if name =? "python" then Some python else None |}.

(** A step on the [python] box that runs [command], with a timeout of one
    second. *)
Definition stepOf (action : string) (command : list string) : Step.t :=
  {| Step.Box := "python";
     Step.User := "sandbox";
     Step.Action := action;
     Step.Version := "";
     Step.Stdin := false;
     Step.Command := command;
     Step.Timeout := 1;
     Step.NOutput := 4096 |}.

Definition engineOf (before : option Step.t) (steps : list Step.t)
    (after : option Step.t) : Docker.t :=
  {| Docker.cfg := boxes;
     Docker.cmd := {| Command.Entry := "main.py";
                      Command.Before := before;
                      Command.Steps := steps;
                      Command.After := after |} |}.

Definition requestOf (version : string) (files : Files) : Request.t :=
  {| Request.ID := "abc123"; Request.Version := version; Request.Files := files |}.

Definition permissionDenied : ext.error :=
  {| ext.Error := "permission denied"; ext.AsExitError := false |}.

(** The same world without the privilege to write over a file that is
    there already (request files are stored read-only). *)
Definition strictWorld : World :=
  {| Sprintf := Sprintf_s;
     Join := Join_plain;
     MkdirTemp := fun _ => ("/tmp/codapi", None);
     WriteFile := fun t path _ _ =>
       if Contains (writtenPaths t) path then Some permissionDenied else None;
     CopyFiles := fun _ _ _ => None;
     Run := scripted;
     Fail := Fail_spec |}.

(** The scratch directory of this world, and what a step on the [python]
    box copies into it. *)
Definition tmp : string := "/tmp/codapi".

Definition copied : trace := [EvCopyFiles "/opt/codapi/python/*" tmp].

Definition sleepStep : Step.t := stepOf actionRun ["sleep"; "60"].
Definition boomStep : Step.t := stepOf actionRun ["boom"].
Definition falseStep : Step.t := stepOf actionRun ["false"].
Definition trueStep : Step.t := stepOf actionRun ["true"].
Definition attachStep : Step.t := stepOf actionExec ["sleep"; "60"].

Definition plain : Docker.t := engineOf None [trueStep] None.

Definition runArgs (step : Step.t) (req : Request.t) : list string :=
  dockerRunArgs world python step req tmp
  ++ expandVars (Step.Command step) (Request.ID req).

Definition source : Files := [("", "print(1)")].

Definition staged : trace :=
  [EvMkdirTemp; EvWriteFile "/tmp/codapi/main.py" "print(1)" 292].

(** What a step on the [python] box leaves in the history. *)
Definition stepEvents (step : Step.t) (req : Request.t) (files : Files)
    (args : list string) : trace :=
  copied ++ [runEvent step req files args].

(** Engines: two run steps that succeed and a cleanup step that fails; a run step
    that fails before a cleanup step that fails too. *)
Definition cleanupFails : Docker.t :=
  engineOf None [trueStep; trueStep] (Some falseStep).
Definition runFails : Docker.t :=
  engineOf None [boomStep; trueStep] (Some falseStep).

(** An engine whose setup step fails. *)
Definition setupFails : Docker.t :=
  engineOf (Some falseStep) [trueStep] (Some trueStep).

(** Two files with distinct names, one of them the entry point under its
    empty name and one under the entry-point filename itself. *)
Definition clash : Files := [("", "print(1)"); ("main.py", "print(2)")].

(** Two files stored under different paths. *)
Definition sources : Files := [("", "print(1)"); ("util.py", "x = 1")].

(** Worlds in which something outside goes wrong: the [docker] binary
    cannot be started; box files cannot be copied. *)
Definition cannotStart : ext.error :=
  {| ext.Error := "fork/exec /usr/bin/docker: no such file or directory";
     ext.AsExitError := false |}.

Definition noDockerWorld : World :=
  {| Sprintf := Sprintf_s;
     Join := Join_plain;
     MkdirTemp := fun _ => ("/tmp/codapi", None);
     WriteFile := fun _ _ _ _ => None;
     CopyFiles := fun _ _ _ => None;
     Run := fun _ _ _ _ _ _ _ => ("", "", Some cannotStart);
     Fail := Fail_spec |}.

Definition noCopyWorld : World :=
  {| Sprintf := Sprintf_s;
     Join := Join_plain;
     MkdirTemp := fun _ => ("/tmp/codapi", None);
     WriteFile := fun _ _ _ _ => None;
     CopyFiles := fun _ _ _ => Some permissionDenied;
     Run := scripted;
     Fail := Fail_spec |}.

(** Engines: no entry-point file; no run step. *)
Definition noEntry : Docker.t :=
  {| Docker.cfg := boxes;
     Docker.cmd := {| Command.Entry := "";
                      Command.Before := None;
                      Command.Steps := [trueStep];
                      Command.After := None |} |}.

Definition noSteps : Docker.t := engineOf None [] (Some trueStep).

(** An engine whose whole pipeline succeeds. *)
Definition allGood : Docker.t :=
  engineOf (Some trueStep) [trueStep; trueStep] (Some trueStep).

(** A run step that pins version 1.0. *)
Definition pinnedStep : Step.t :=
  {| Step.Box := "python";
     Step.User := "sandbox";
     Step.Action := actionRun;
     Step.Version := "1.0";
     Step.Stdin := false;
     Step.Command := ["true"];
     Step.Timeout := 1;
     Step.NOutput := 4096 |}.

(** [order] is what one iteration over the map with the entries [m] may
    yield: every entry once, in an order the language leaves open. *)
Definition iteration (m order : Files) : Prop := Permutation order m.

(** The contents of the [fileio.WriteFile] calls of a trace, in order. *)
Fixpoint writtenContents (tr : trace) : list string :=
  match tr with
  | [] => []
  | EvWriteFile _ content _ :: tr' => content :: writtenContents tr'
  | _ :: tr' => writtenContents tr'
  end.

(** A map of two files, and the two orders an iteration may yield. *)
Definition twoFiles : Files := [("a.py", "1"); ("b.py", "2")].
Definition twoFilesBack : Files := [("b.py", "2"); ("a.py", "1")].

(** * Properties *)

Section Properties.

Variable W : World.

(** ** The monad *)

Lemma bind_Ret {A B} (m : M A) (k : A -> M B) t a t' :
  m t = (Ret a, t') -> bind m k t = k a t'.
Proof. intros H. unfold bind. now rewrite H. Qed.

Lemma bind_Panic {A B} (m : M A) (k : A -> M B) t msg t' :
  m t = (Panic msg, t') -> bind m k t = (Panic msg, t').
Proof. intros H. unfold bind. now rewrite H. Qed.

Lemma call_eq {A} (answer : trace -> A) ev t :
  call answer ev t = (Ret (answer t), t ++ [ev]).
Proof. reflexivity. Qed.

Lemma emits_ret {A} Q (a : A) : emits Q (ret a).
Proof. intros t. exists []. split; [now rewrite app_nil_r | constructor]. Qed.

Lemma emits_panic {A} Q msg : emits Q (@panic A msg).
Proof. intros t. exists []. split; [now rewrite app_nil_r | constructor]. Qed.

Lemma emits_call {A} (Q : event -> Prop) (answer : trace -> A) ev :
  Q ev -> emits Q (call answer ev).
Proof. intros H t. exists [ev]. split; [reflexivity | now repeat constructor]. Qed.

Lemma emits_bind {A B} Q (m : M A) (k : A -> M B) :
  emits Q m -> (forall a, emits Q (k a)) -> emits Q (bind m k).
Proof.
  intros Hm Hk t. unfold bind.
  destruct (Hm t) as [n1 [E1 F1]].
  destruct (m t) as [[a | msg] t1]; simpl in E1; subst t1.
  - destruct (Hk a (t ++ n1)) as [n2 [E2 F2]].
    exists (n1 ++ n2). split.
    + now rewrite E2, app_assoc.
    + now apply Forall_app.
  - exists n1. now split.
Qed.

Lemma emits_weaken {A} (P Q : event -> Prop) (m : M A) :
  (forall ev, P ev -> Q ev) -> emits P m -> emits Q m.
Proof.
  intros HPQ Hm t. destruct (Hm t) as [n [E F]].
  exists n. split; [exact E | eapply Forall_impl; eauto].
Qed.

Ltac run_bind E :=
  first [ progress repeat rewrite (bind_Ret _ _ _ _ _ E)
        | progress repeat rewrite (bind_Panic _ _ _ _ _ E) ].

Ltac emits_step :=
  first [ apply emits_ret | apply emits_panic
        | apply emits_call; solve [reflexivity | simpl; auto]
        | apply emits_bind; [| intros ] ].

(** ** Argument builder *)

Lemma string_of_uint_head (d : Decimal.uint) :
  exists c s, NilZero.string_of_uint d = String c s /\ c <> "-"%char.
Proof.
  destruct d; simpl; eexists; eexists; (split; [reflexivity | discriminate]).
Qed.

Lemma Itoa_not_flag (n : Z) (s : string) : Itoa n <> String "-" (String "-" s).
Proof.
  unfold Itoa. destruct (Z.to_int n) as [d | d]; simpl;
    destruct (string_of_uint_head d) as [c [r [E Hc]]]; rewrite E;
    intros H; inversion H; congruence.
Qed.

Lemma Itoa_m_not_flag (n : Z) (s : string) :
  (Itoa n ++ "m")%string <> String "-" (String "-" s).
Proof.
  unfold Itoa. destruct (Z.to_int n) as [d | d]; simpl;
    destruct (string_of_uint_head d) as [c [r [E Hc]]]; rewrite E; simpl;
    intros H; inversion H; congruence.
Qed.

Lemma In_flagged flag xs x :
  In x (flagged flag xs) <-> (xs <> [] /\ x = flag) \/ In x xs.
Proof.
  unfold flagged. induction xs as [| y ys IH]; simpl.
  - split; [tauto | intros [[H _] | H]; [congruence | exact H]].
  - rewrite IH. split.
    + intros [H | [H | [[_ H] | H]]]; subst; auto;
        left; (split; [discriminate | reflexivity]).
    + intros [[_ H] | [H | H]]; subst; auto.
Qed.

Lemma dockerRunArgs_shape box step req dir :
  dockerRunArgs W box step req dir =
    [ actionRun; "--rm"; "--name"; Request.ID req;
      "--runtime"; Box.Runtime box; "--cpus"; Itoa (Box.CPU box);
      "--memory"; (Itoa (Box.Memory box) ++ "m")%string;
      "--network"; Box.Network box; "--pids-limit"; Itoa (Box.NProc box);
      "--user"; Step.User step ]
    ++ (if Box.Writable box then [] else ["--read-only"])
    ++ (if Step.Stdin step then ["--interactive"] else [])
    ++ (if Box.Storage box =? "" then []
        else ["--storage-opt"; ("size=" ++ Box.Storage box)%string])
    ++ (if dir =? "" then [] else ["--volume"; Sprintf W (Box.Volume box) dir])
    ++ flagged "--tmpfs" (Box.Tmpfs box)
    ++ flagged "--cap-add" (Box.CapAdd box)
    ++ flagged "--cap-drop" (Box.CapDrop box)
    ++ flagged "--ulimit" (Box.Ulimit box)
    ++ [imageRef box step req].
Proof.
  unfold dockerRunArgs, imageRef.
  destruct (Box.Writable box), (Step.Stdin step), (Box.Storage box =? ""),
    (dir =? ""), (Step.Version step =? ""), (Request.Version req =? "");
    simpl; repeat rewrite <- app_assoc; reflexivity.
Qed.

Lemma last_app_one {A} (l : list A) (x d : A) : last (l ++ [x]) d = x.
Proof. apply last_last. Qed.

Lemma dockerRunArgs_last box step req dir :
  last (dockerRunArgs W box step req dir) "" = imageRef box step req.
Proof.
  rewrite dockerRunArgs_shape.
  repeat rewrite app_assoc. apply last_app_one.
Qed.

Lemma readonly_in_args box step req dir :
  ~ In "--read-only" (runValues W box step req dir) ->
  (In "--read-only" (dockerRunArgs W box step req dir)
   <-> Box.Writable box = false).
Proof.
  intros Hclean. rewrite dockerRunArgs_shape.
  unfold runValues in Hclean.
  repeat (rewrite in_app_iff in Hclean || simpl in Hclean).
  split.
  - intros Hin. destruct (Box.Writable box); [| reflexivity]. exfalso.
    repeat (rewrite in_app_iff in Hin || rewrite In_flagged in Hin || simpl in Hin).
    unfold actionRun in Hin.
    destruct (Step.Stdin step), (Box.Storage box =? ""), (dir =? "");
      simpl in Hin;
      repeat match goal with
             | H : _ \/ _ |- _ => destruct H
             | H : _ /\ _ |- _ => destruct H
             | H : False |- _ => contradiction
             end;
      try discriminate;
      try (eapply Itoa_not_flag; eassumption);
      try (eapply Itoa_m_not_flag; eassumption);
      apply Hclean; tauto.
  - intros Hw. rewrite Hw. apply in_or_app. right. now left.
Qed.

(** C6.  For every [run]-action argument build: the argument list ends with
    the image reference, which is the image tagged with the step's pinned
    version if that is non-empty, else the image tagged with the request's
    version if that is non-empty, else the untagged image; and the
    [--read-only] flag is there exactly when the box is not writable: the
    list is the one built for the writable variant of the box with
    [--read-only] spliced in after the sixteen leading arguments when the box
    is not writable and nothing spliced in when it is, so that, unless one of
    the configured values is itself the text [--read-only], the text is an
    argument if and only if the box is not writable. *)
Theorem dockerRunArgs_image_and_readonly
    (box : Box.t) (step : Step.t) (req : Request.t) (dir : string) :
  (Step.Version step <> "" ->
     last (dockerRunArgs W box step req dir) ""
     = (Box.Image box ++ ":" ++ Step.Version step)%string)
  /\ (Step.Version step = "" -> Request.Version req <> "" ->
     last (dockerRunArgs W box step req dir) ""
     = (Box.Image box ++ ":" ++ Request.Version req)%string)
  /\ (Step.Version step = "" -> Request.Version req = "" ->
     last (dockerRunArgs W box step req dir) "" = Box.Image box)
  /\ dockerRunArgs W box step req dir
     = firstn 16 (dockerRunArgs W (withWritable true box) step req dir)
       ++ (if Box.Writable box then [] else ["--read-only"])
       ++ skipn 16 (dockerRunArgs W (withWritable true box) step req dir)
  /\ (~ In "--read-only" (runValues W box step req dir) ->
      (In "--read-only" (dockerRunArgs W box step req dir)
       <-> Box.Writable box = false)).
Proof.
  repeat split.
  - intros Hs. rewrite dockerRunArgs_last. unfold imageRef.
    apply String.eqb_neq in Hs. now rewrite Hs.
  - intros Hs Hr. rewrite dockerRunArgs_last. unfold imageRef.
    apply String.eqb_eq in Hs. apply String.eqb_neq in Hr. now rewrite Hs, Hr.
  - intros Hs Hr. rewrite dockerRunArgs_last. unfold imageRef.
    apply String.eqb_eq in Hs. apply String.eqb_eq in Hr. now rewrite Hs, Hr.
  - rewrite !dockerRunArgs_shape. reflexivity.
  - apply readonly_in_args; assumption.
  - apply readonly_in_args; assumption.
Qed.

(** ** Outcome classification *)

Lemma exec_unfold box step req dir files t t1 args :
  buildArgs W box step req dir t = (Ret args, t1) ->
  exec W box step req dir files t =
    (let '(stdout, stderr, err) := runAnswer W t1 step req files args in
     match err with
     | None => ret (stdout, stderr, None)
     | Some err =>
         if ext.Error err =? killed then
           bind (if Step.Action step =? actionRun
                 then call (fun _ => tt) (EvGo "docker" ["kill"; Request.ID req])
                 else ret tt)
                (fun _ => ret (stdout, stderr, Some ErrTimeout))
         else if ext.AsExitError err then
           if negb ((stdout ++ stderr)%string =? "") then
             ret ("", (stdout ++ stderr)%string,
                  Some (errorString
                          ((stdout ++ stderr) ++ " (" ++ ext.Error err ++ ")")%string))
           else ret ("", (stdout ++ stderr)%string, Some (External err))
         else
           ret (stdout, stderr,
                Some (NewExecutionError "execute code" (External err)))
     end) (t1 ++ [runEvent step req files args]).
Proof.
  intros Hargs. unfold exec. rewrite (bind_Ret _ _ _ _ _ Hargs).
  unfold bind at 1. rewrite call_eq.
  unfold runAnswer, stdinOf, runEvent.
  destruct (Run W t1 _ _ _ _ _ _) as [[stdout stderr] err].
  reflexivity.
Qed.

Lemma exec_killed box step req dir files t t1 args stdout stderr err :
  buildArgs W box step req dir t = (Ret args, t1) ->
  runAnswer W t1 step req files args = (stdout, stderr, Some err) ->
  ext.Error err = killed ->
  exec W box step req dir files t =
    (Ret (stdout, stderr, Some ErrTimeout),
     t1 ++ runEvent step req files args
        :: (if Step.Action step =? actionRun
            then [EvGo "docker" ["kill"; Request.ID req]] else [])).
Proof.
  intros Hargs Hrun Hk. rewrite (exec_unfold _ _ _ _ _ _ _ _ Hargs), Hrun.
  apply String.eqb_eq in Hk. rewrite Hk.
  destruct (Step.Action step =? actionRun); unfold bind, call, ret; simpl.
  - now rewrite <- app_assoc.
  - reflexivity.
Qed.

Lemma exec_exit box step req dir files t t1 args stdout stderr err :
  buildArgs W box step req dir t = (Ret args, t1) ->
  runAnswer W t1 step req files args = (stdout, stderr, Some err) ->
  ext.Error err <> killed ->
  ext.AsExitError err = true ->
  exec W box step req dir files t =
    (Ret ("", (stdout ++ stderr)%string,
          Some (if (stdout ++ stderr)%string =? "" then External err
                else errorString
                       ((stdout ++ stderr) ++ " (" ++ ext.Error err ++ ")")%string)),
     t1 ++ [runEvent step req files args]).
Proof.
  intros Hargs Hrun Hk Hx. rewrite (exec_unfold _ _ _ _ _ _ _ _ Hargs), Hrun.
  apply String.eqb_neq in Hk. rewrite Hk, Hx.
  destruct ((stdout ++ stderr)%string =? ""); reflexivity.
Qed.

Lemma execStep_unfold e step req dir files t t0 t1 :
  validateVersion (Config.Boxes (Docker.cfg e) (Step.Box step)) step req t
    = (Ret None, t0) ->
  copyFiles W (Config.Boxes (Docker.cfg e) (Step.Box step)) dir t0
    = (Ret None, t1) ->
  execStep W e step req dir files t =
    bind (exec W (Config.Boxes (Docker.cfg e) (Step.Box step)) step req dir files)
      (fun '(stdout, stderr, err) =>
         match err with
         | Some err => ret (Fail W (Request.ID req) err)
         | None =>
             ret {| Execution.ID := Request.ID req;
                    Execution.OK := true;
                    Execution.Stdout := stdout;
                    Execution.Stderr := stderr;
                    Execution.Err := None |}
         end) t1.
Proof.
  intros Hv Hc. unfold execStep.
  rewrite (bind_Ret _ _ _ _ _ Hv). rewrite (bind_Ret _ _ _ _ _ Hc).
  reflexivity.
Qed.

(** C1.  When the process invoker answers a step's call with the
    timeout-kill error (its text is [signal: killed]), the step's outcome is
    the failure made from [ErrTimeout], and the calls the step makes after
    the invocation are: exactly one detached [docker kill <id>] with the
    execution identifier if the step's action is [run], and none otherwise
    (none for an [exec] step in particular). *)
Theorem execStep_timeout e step req dir files t t0 t1 args stdout stderr err :
  validateVersion (Config.Boxes (Docker.cfg e) (Step.Box step)) step req t
    = (Ret None, t0) ->
  copyFiles W (Config.Boxes (Docker.cfg e) (Step.Box step)) dir t0
    = (Ret None, t1) ->
  buildArgs W (Config.Boxes (Docker.cfg e) (Step.Box step)) step req dir t1
    = (Ret args, t1) ->
  runAnswer W t1 step req files args = (stdout, stderr, Some err) ->
  ext.Error err = killed ->
  exists kills,
    exec W (Config.Boxes (Docker.cfg e) (Step.Box step)) step req dir files t1
      = (Ret (stdout, stderr, Some ErrTimeout),
         t1 ++ runEvent step req files args :: kills)
    /\ execStep W e step req dir files t
      = (Ret (Fail W (Request.ID req) ErrTimeout),
         t1 ++ runEvent step req files args :: kills)
    /\ (Step.Action step = actionRun
        <-> kills = [EvGo "docker" ["kill"; Request.ID req]])
    /\ (Step.Action step <> actionRun -> kills = [])
    /\ (Step.Action step = actionExec -> kills = []).
Proof.
  intros Hv Hc Hargs Hrun Hk.
  pose proof (exec_killed _ _ _ _ files _ _ _ _ _ _ Hargs Hrun Hk) as Hexec.
  exists (if Step.Action step =? actionRun
          then [EvGo "docker" ["kill"; Request.ID req]] else []).
  split; [exact Hexec |]. split.
  - rewrite (execStep_unfold _ _ _ _ _ _ _ _ Hv Hc).
    now rewrite (bind_Ret _ _ _ _ _ Hexec).
  - destruct (Step.Action step =? actionRun) eqn:Ha.
    + apply String.eqb_eq in Ha. rewrite Ha.
      repeat split; auto; try congruence; try discriminate.
    + apply String.eqb_neq in Ha.
      repeat split; auto; try congruence; try discriminate.
Qed.

(** C3.  When the invoked process exits nonzero without a timeout (the raw
    error holds an exit error and is not the timeout-kill error), the raw
    outcome of [exec] has an empty stdout, a stderr that is the captured
    stdout followed by the captured stderr, and an error that carries the
    exit detail: the combined output followed by the exit detail in
    parentheses, or the exit error itself when the combined output is empty.
    That error is not an [ExecutionError], so the step's failure is made from
    a code-level error, not an infrastructure one. *)
Theorem execStep_exit_nonzero e step req dir files t t0 t1 args stdout stderr err :
  validateVersion (Config.Boxes (Docker.cfg e) (Step.Box step)) step req t
    = (Ret None, t0) ->
  copyFiles W (Config.Boxes (Docker.cfg e) (Step.Box step)) dir t0
    = (Ret None, t1) ->
  buildArgs W (Config.Boxes (Docker.cfg e) (Step.Box step)) step req dir t1
    = (Ret args, t1) ->
  runAnswer W t1 step req files args = (stdout, stderr, Some err) ->
  ext.Error err <> killed ->
  ext.AsExitError err = true ->
  exists err',
    exec W (Config.Boxes (Docker.cfg e) (Step.Box step)) step req dir files t1
      = (Ret ("", (stdout ++ stderr)%string, Some err'),
         t1 ++ [runEvent step req files args])
    /\ execStep W e step req dir files t
      = (Ret (Fail W (Request.ID req) err'),
         t1 ++ [runEvent step req files args])
    /\ isExecutionError err' = false
    /\ ((stdout ++ stderr)%string <> "" ->
        err' = errorString
                 ((stdout ++ stderr) ++ " (" ++ ext.Error err ++ ")")%string)
    /\ ((stdout ++ stderr)%string = "" -> err' = External err).
Proof.
  intros Hv Hc Hargs Hrun Hk Hx.
  pose proof (exec_exit _ _ _ _ files _ _ _ _ _ _ Hargs Hrun Hk Hx) as Hexec.
  eexists. split; [exact Hexec |]. split.
  - rewrite (execStep_unfold _ _ _ _ _ _ _ _ Hv Hc).
    now rewrite (bind_Ret _ _ _ _ _ Hexec).
  - destruct ((stdout ++ stderr)%string =? "") eqn:Hs.
    + apply String.eqb_eq in Hs. repeat split; auto; congruence.
    + apply String.eqb_neq in Hs. repeat split; auto; congruence.
Qed.

(** C10.  When a nonzero exit is classified as a code-level failure, the
    error [exec] returns is the underlying exit error, unmodified, if the
    captured stdout followed by the captured stderr is empty; it is a new
    error whose text is that combined output followed by the exit detail in
    parentheses only when the combined output is not empty. *)
Theorem exec_exit_error_wrapping box step req dir files t args stdout stderr err :
  buildArgs W box step req dir t = (Ret args, t) ->
  runAnswer W t step req files args = (stdout, stderr, Some err) ->
  ext.Error err <> killed ->
  ext.AsExitError err = true ->
  exists err',
    fst (exec W box step req dir files t)
      = Ret ("", (stdout ++ stderr)%string, Some err')
    /\ ((stdout ++ stderr)%string = "" <-> err' = External err)
    /\ ((stdout ++ stderr)%string <> "" <->
        err' = errorString
                 ((stdout ++ stderr) ++ " (" ++ ext.Error err ++ ")")%string).
Proof.
  intros Hargs Hrun Hk Hx.
  rewrite (exec_exit _ _ _ _ files _ _ _ _ _ _ Hargs Hrun Hk Hx).
  eexists. split; [reflexivity |].
  destruct ((stdout ++ stderr)%string =? "") eqn:Hs.
  - apply String.eqb_eq in Hs.
    repeat split; auto; try congruence; try discriminate.
  - apply String.eqb_neq in Hs.
    repeat split; auto; try congruence; try discriminate.
Qed.

(** ** Version validation *)

Lemma buildArgs_Some box step req dir t :
  exists args, buildArgs W (Some box) step req dir t = (Ret args, t)
    /\ (Step.Action step = actionRun ->
        args = dockerRunArgs W box step req dir
               ++ expandVars (Step.Command step) (Request.ID req)).
Proof.
  unfold buildArgs, bind, ret.
  destruct (Step.Action step =? actionRun) eqn:Ha.
  - eexists. split; [reflexivity | reflexivity].
  - apply String.eqb_neq in Ha.
    destruct (Step.Action step =? actionExec);
      (eexists; split; [reflexivity | intros; contradiction]).
Qed.

Lemma exec_trace box step req dir files t t1 args :
  buildArgs W box step req dir t = (Ret args, t1) ->
  exists res rest,
    exec W box step req dir files t
    = (Ret res, t1 ++ runEvent step req files args :: rest).
Proof.
  intros Hargs. rewrite (exec_unfold _ _ _ _ _ _ _ _ Hargs).
  destruct (runAnswer W t1 step req files args) as [[stdout stderr] [err |]].
  - destruct (ext.Error err =? killed).
    + destruct (Step.Action step =? actionRun); unfold bind, call, ret; simpl;
        eexists; eexists; try rewrite <- app_assoc; reflexivity.
    + destruct (ext.AsExitError err);
        [destruct (negb ((stdout ++ stderr)%string =? "")) |];
        eexists; eexists; reflexivity.
  - eexists. eexists. reflexivity.
Qed.

Lemma execStep_trace e step req dir files t t0 t1 args :
  validateVersion (Config.Boxes (Docker.cfg e) (Step.Box step)) step req t
    = (Ret None, t0) ->
  copyFiles W (Config.Boxes (Docker.cfg e) (Step.Box step)) dir t0
    = (Ret None, t1) ->
  buildArgs W (Config.Boxes (Docker.cfg e) (Step.Box step)) step req dir t1
    = (Ret args, t1) ->
  exists out rest,
    execStep W e step req dir files t
    = (Ret out, t1 ++ runEvent step req files args :: rest).
Proof.
  intros Hv Hc Hargs. rewrite (execStep_unfold _ _ _ _ _ _ _ _ Hv Hc).
  destruct (exec_trace _ _ _ _ files _ _ _ Hargs) as [[[so se] err] [rest E]].
  rewrite (bind_Ret _ _ _ _ _ E).
  destruct err; eexists; eexists; reflexivity.
Qed.

(** C5, as the code has it.  For a step that pins no version, run on a box
    that the configuration declares: if the request names a version that is
    not among the box's versions, the step fails with the error
    [box <name> does not support version <version>] before any file is
    copied and any process is invoked (the trace is left as it was); that
    error is a plain error, not an [ExecutionError], so it is not marked as
    an infrastructure failure.  If the request's version is among the box's
    versions, or is empty, validation passes and the step goes on: once the
    box files are copied it invokes the process, and for a [run] step with an
    empty request version the image argument is the box's untagged image. *)
Theorem execStep_version_gate e step req dir files t box :
  Config.Boxes (Docker.cfg e) (Step.Box step) = Some box ->
  Step.Version step = "" ->
  (Request.Version req <> "" ->
   Contains (Box.Versions box) (Request.Version req) = false ->
   execStep W e step req dir files t
   = (Ret (Fail W (Request.ID req)
             (errorString ("box " ++ Step.Box step
                           ++ " does not support version "
                           ++ Request.Version req)%string)), t)
   /\ isExecutionError
        (errorString ("box " ++ Step.Box step
                      ++ " does not support version "
                      ++ Request.Version req)%string) = false)
  /\ (Request.Version req = ""
      \/ Contains (Box.Versions box) (Request.Version req) = true ->
      validateVersion (Some box) step req t = (Ret None, t)
      /\ forall t1,
           copyFiles W (Some box) dir t = (Ret None, t1) ->
           exists args out rest,
             buildArgs W (Some box) step req dir t1 = (Ret args, t1)
             /\ execStep W e step req dir files t
                = (Ret out, t1 ++ runEvent step req files args :: rest)
             /\ (Step.Action step = actionRun -> Request.Version req = "" ->
                 args = dockerRunArgs W box step req dir
                        ++ expandVars (Step.Command step) (Request.ID req)
                 /\ last (dockerRunArgs W box step req dir) ""
                    = Box.Image box)).
Proof.
  intros Hbox Hpin. split.
  - intros Hreq Hno. split; [| reflexivity].
    unfold execStep. rewrite Hbox. unfold validateVersion.
    apply String.eqb_neq in Hreq. rewrite Hpin, Hreq, Hno. reflexivity.
  - intros Hok.
    assert (Hv : validateVersion (Some box) step req t = (Ret None, t)).
    { unfold validateVersion. rewrite Hpin. simpl.
      destruct Hok as [Hempty | Hin].
      - rewrite Hempty. reflexivity.
      - rewrite Hin. destruct (Request.Version req =? ""); reflexivity. }
    split; [exact Hv |].
    intros t1 Hc.
    destruct (buildArgs_Some box step req dir t1) as [args [Hargs Hrun]].
    rewrite <- Hbox in Hv, Hc, Hargs.
    destruct (execStep_trace e step req dir files _ _ _ _ Hv Hc Hargs)
      as [out [rest E]].
    rewrite Hbox in Hargs.
    exists args, out, rest. split; [exact Hargs |]. split; [exact E |].
    intros Ha Hempty. split; [now apply Hrun |].
    rewrite dockerRunArgs_last. unfold imageRef.
    rewrite Hpin, Hempty. reflexivity.
Qed.

(** ** Pipeline controller *)

Lemma last_cons_default {A} (l : list A) (a d : A) :
  last (a :: l) d = last l a.
Proof.
  revert a d. induction l as [| b l IH]; intros a d; [reflexivity |].
  change (last (a :: b :: l) d) with (last (b :: l) d).
  now rewrite !IH.
Qed.

Lemma restLog_execRest e req dir rest out0 t :
  match restLog W e req dir rest t with
  | (Ret log, t') =>
      execRest W e req dir rest out0 t = (Ret (last (map snd log) out0), t')
  | (Panic msg, t') => execRest W e req dir rest out0 t = (Panic msg, t')
  end.
Proof.
  revert out0 t. induction rest as [| step rest IH]; intros out0 t; simpl.
  - reflexivity.
  - destruct (execStep W e step req dir [] t) as [[out | msg] t1] eqn:E.
    + run_bind E. destruct (Execution.OK out); simpl; [| reflexivity].
      specialize (IH out t1).
      destruct (restLog W e req dir rest t1) as [[log | msg] t2] eqn:E1.
      * run_bind E1. rewrite IH. cbn [map snd ret].
        now rewrite last_cons_default.
      * run_bind E1. exact IH.
    + run_bind E. reflexivity.
Qed.

Lemma restLog_failure e req dir rest t log t' :
  restLog W e req dir rest t = (Ret log, t') ->
  forall step out d,
    In (step, out) log -> Execution.OK out = false ->
    last (map snd log) d = out.
Proof.
  revert t log t'. induction rest as [| s rest IH]; intros t log t'; simpl.
  - unfold ret. intros H. inversion H. intros ? ? ? [].
  - destruct (execStep W e s req dir [] t) as [[o | msg] t1] eqn:E;
      run_bind E; [| discriminate].
    destruct (Execution.OK o) eqn:Ho; simpl.
    + destruct (restLog W e req dir rest t1) as [[log1 | msg] t2] eqn:E1;
        run_bind E1; [| discriminate].
      unfold ret. intros H. inversion H; subst.
      intros step out d [Hin | Hin] Hbad.
      * inversion Hin; subst. congruence.
      * cbn [map snd]. rewrite last_cons_default. eapply IH; eauto.
    + unfold ret. intros H. inversion H; subst.
      intros step out d [Hin | []] Hbad. now inversion Hin.
Qed.

Lemma restLog_success e req dir rest t log t' :
  restLog W e req dir rest t = (Ret log, t') ->
  Forall succeeded log -> map fst log = rest.
Proof.
  revert t log t'. induction rest as [| s rest IH]; intros t log t'; simpl.
  - unfold ret. intros H. now inversion H.
  - destruct (execStep W e s req dir [] t) as [[o | msg] t1] eqn:E;
      run_bind E; [| discriminate].
    destruct (Execution.OK o) eqn:Ho; simpl.
    + destruct (restLog W e req dir rest t1) as [[log1 | msg] t2] eqn:E1;
        run_bind E1; [| discriminate].
      unfold ret. intros H. inversion H; subst.
      intros Hall. inversion Hall; subst.
      simpl. f_equal. eapply IH; eauto.
    + unfold ret. intros H. inversion H; subst. intros Hall.
      inversion Hall; subst. unfold succeeded in *. simpl in *. congruence.
Qed.

Lemma last_In {A} (l : list A) (d : A) : In (last l d) (d :: l).
Proof.
  destruct l as [| x l]; [now left |].
  right. destruct (@exists_last _ (x :: l)) as [l' [a Ea]]; [discriminate |].
  rewrite Ea, last_last. apply in_or_app. right. now left.
Qed.

(** What [runSteps] returns, read off the log of the steps it ran. *)
Lemma runLog_runSteps e req dir t log t' :
  runLog W e req dir t = (Ret log, t') ->
  exists out,
    runSteps W e req dir t = (Ret out, t')
    /\ (forall step o, In (step, o) log -> Execution.OK o = false -> o = out)
    /\ (Forall succeeded log ->
        Execution.OK out = true /\ map fst log = Command.Steps (Docker.cmd e)).
Proof.
  unfold runLog, runSteps.
  destruct (Command.Steps (Docker.cmd e)) as [| first rest]; [discriminate |].
  destruct (execStep W e first req dir (Request.Files req) t)
    as [[o1 | msg] t1] eqn:E; run_bind E; [| discriminate].
  destruct (Execution.OK o1) eqn:Ho1; simpl.
  - destruct rest as [| s rest].
    + simpl. unfold ret. intros H. inversion H; subst.
      exists o1. split; [reflexivity |]. split.
      * intros step o [Hin | []] _. now inversion Hin.
      * intros _. now split.
    + change (0 <? List.length (s :: rest))%nat with true. cbv iota.
      pose proof (restLog_execRest e req dir (s :: rest) o1 t1) as Hrest.
      destruct (restLog W e req dir (s :: rest) t1) as [[log1 | msg] t2] eqn:E1;
        run_bind E1; [| discriminate].
      unfold ret. intros H. inversion H; subst.
      exists (last (map snd log1) o1). split; [exact Hrest |]. split.
      * intros step o [Hin | Hin] Hbad.
        -- inversion Hin; subst. congruence.
        -- symmetry. eapply restLog_failure; eauto.
      * intros Hall. inversion Hall as [| ? ? _ Hall1]; subst.
        pose proof (restLog_success _ _ _ _ _ _ _ E1 Hall1) as Hsteps.
        split; [| simpl; now rewrite Hsteps].
        destruct (last_In (map snd log1) o1) as [Hl | Hl];
          [now rewrite <- Hl |].
        apply in_map_iff in Hl. destruct Hl as [[s' o'] [Eo Hin]].
        simpl in Eo. rewrite <- Eo.
        rewrite Forall_forall in Hall1. exact (Hall1 _ Hin).
  - unfold ret. intros H. inversion H; subst.
    exists o1. split; [reflexivity |]. split.
    + intros step o [Hin | []] _. now inversion Hin.
    + intros Hall. inversion Hall; subst. unfold succeeded in *. simpl in *.
      congruence.
Qed.

(** The log is there whenever [runSteps] returns. *)
Lemma runSteps_runLog e req dir t out t' :
  runSteps W e req dir t = (Ret out, t') ->
  exists log, runLog W e req dir t = (Ret log, t').
Proof.
  unfold runLog, runSteps.
  destruct (Command.Steps (Docker.cmd e)) as [| first rest]; [discriminate |].
  destruct (execStep W e first req dir (Request.Files req) t)
    as [[o1 | msg] t1] eqn:E; run_bind E; [| discriminate].
  destruct (Execution.OK o1 && (0 <? List.length rest)%nat).
  - pose proof (restLog_execRest e req dir rest o1 t1) as Hrest.
    destruct (restLog W e req dir rest t1) as [[log1 | msg] t2] eqn:E1;
      run_bind E1; rewrite Hrest; intros H; inversion H; subst.
    eexists. reflexivity.
  - unfold ret. intros H. inversion H; subst. eexists. reflexivity.
Qed.

Lemma Exec_unfold e req t0 dir t1 :
  MkdirTemp W t0 = (dir, None) ->
  stage W e req dir (t0 ++ [EvMkdirTemp]) = (Ret None, t1) ->
  Exec W e req t0 =
    (fst (pipeline W e req dir t1),
     snd (pipeline W e req dir t1) ++ [EvRemoveAll dir]).
Proof.
  intros Hdir Hstage. unfold Exec. unfold bind at 1. rewrite call_eq, Hdir.
  unfold defer. rewrite (bind_Ret _ _ _ _ _ Hstage).
  destruct (pipeline W e req dir t1) as [r t2]. reflexivity.
Qed.

Lemma pipeline_after_setup e req dir t1 t1' :
  setupPassed W e req dir t1 t1' ->
  pipeline W e req dir t1 =
    bind (runSteps W e req dir) (cleanup W e req dir) t1'.
Proof.
  unfold setupPassed, pipeline.
  destruct (Command.Before (Docker.cmd e)) as [before |].
  - intros [out [E Hok]]. run_bind E. now rewrite Hok.
  - intros ->. reflexivity.
Qed.

(** C2.  For every [Exec] call with a configured cleanup step, in which the
    temp directory was made, the request files stored and the setup step (if
    any) passed, and in which the run steps and then the cleanup step ran to
    an outcome: if every run step succeeded (then all of the command's run
    steps were executed) and the cleanup step failed, [Exec] returns the
    cleanup step's outcome; if some run step failed, [Exec] returns that run
    step's outcome, whatever the cleanup step's outcome is.  In both cases
    the cleanup step was executed: the final history is the one the cleanup
    step left, followed by the removal of the temp directory. *)
Theorem Exec_cleanup_precedence e req t0 dir t1 t1' after log t2 afterOut t3 :
  Command.After (Docker.cmd e) = Some after ->
  MkdirTemp W t0 = (dir, None) ->
  stage W e req dir (t0 ++ [EvMkdirTemp]) = (Ret None, t1) ->
  setupPassed W e req dir t1 t1' ->
  runLog W e req dir t1' = (Ret log, t2) ->
  execStep W e after req dir [] t2 = (Ret afterOut, t3) ->
  (Forall succeeded log ->
   map fst log = Command.Steps (Docker.cmd e)
   /\ (Execution.OK afterOut = false ->
       Exec W e req t0 = (Ret afterOut, t3 ++ [EvRemoveAll dir])))
  /\ (forall step out,
        In (step, out) log -> Execution.OK out = false ->
        Exec W e req t0 = (Ret out, t3 ++ [EvRemoveAll dir])).
Proof.
  intros Hafter Hdir Hstage Hsetup Hlog Hclean.
  destruct (runLog_runSteps _ _ _ _ _ _ Hlog) as [out [Hrun [Hbad Hgood]]].
  assert (Hpipe : pipeline W e req dir t1
                  = (Ret (if Execution.OK out && negb (Execution.OK afterOut)
                          then afterOut else out), t3)).
  { rewrite (pipeline_after_setup _ _ _ _ _ Hsetup).
    rewrite (bind_Ret _ _ _ _ _ Hrun). unfold cleanup. rewrite Hafter.
    rewrite (bind_Ret _ _ _ _ _ Hclean).
    destruct (Execution.OK out && negb (Execution.OK afterOut)); reflexivity. }
  rewrite (Exec_unfold _ _ _ _ _ Hdir Hstage), Hpipe. simpl. split.
  - intros Hall. destruct (Hgood Hall) as [Hok Hsteps].
    split; [exact Hsteps |]. intros Hfail. now rewrite Hok, Hfail.
  - intros step o Hin Hfail. rewrite <- (Hbad _ _ Hin Hfail), Hfail.
    reflexivity.
Qed.

(** C4.  For every [Exec] call with a configured setup step, in which the
    temp directory was made and the request files stored: if the setup step
    fails, [Exec] returns the setup step's outcome, and after the setup step
    nothing is done but removing the temp directory: no run step and no
    cleanup step is invoked. *)
Theorem Exec_setup_failure e req t0 dir t1 before out t2 :
  Command.Before (Docker.cmd e) = Some before ->
  MkdirTemp W t0 = (dir, None) ->
  stage W e req dir (t0 ++ [EvMkdirTemp]) = (Ret None, t1) ->
  execStep W e before req dir [] t1 = (Ret out, t2) ->
  Execution.OK out = false ->
  Exec W e req t0 = (Ret out, t2 ++ [EvRemoveAll dir]).
Proof.
  intros Hbefore Hdir Hstage Hsetup Hfail.
  rewrite (Exec_unfold _ _ _ _ _ Hdir Hstage).
  unfold pipeline. rewrite Hbefore, (bind_Ret _ _ _ _ _ Hsetup), Hfail.
  reflexivity.
Qed.

(** ** File staging *)

Lemma emits_validateVersion Q box step req : emits Q (validateVersion box step req).
Proof.
  unfold validateVersion.
  destruct (_ && _); [| emits_step].
  destruct box; [| emits_step].
  destruct (negb _); emits_step.
Qed.

Lemma emits_copyFiles box dir : emits notWrite (copyFiles W box dir).
Proof.
  unfold copyFiles. destruct box as [b |]; [| emits_step].
  destruct (_ =? _)%nat; [emits_step |].
  induction (Box.Files b) as [| pattern ps IH]; simpl; [emits_step |].
  emits_step; [emits_step |]. destruct a; [emits_step | exact IH].
Qed.

Lemma emits_buildArgs Q box step req dir : emits Q (buildArgs W box step req dir).
Proof.
  unfold buildArgs. emits_step; [| emits_step].
  destruct (_ =? _); [destruct box; emits_step |].
  destruct (_ =? _); emits_step.
Qed.

Lemma emits_exec box step req dir files :
  emits notWrite (exec W box step req dir files).
Proof.
  unfold exec. emits_step; [apply emits_buildArgs |].
  emits_step; [emits_step |].
  destruct a0 as [[stdout stderr] [err |]]; [| emits_step].
  destruct (_ =? _).
  - emits_step; [| emits_step].
    destruct (_ =? _); [| emits_step].
    unfold dockerKill. emits_step.
  - destruct (ext.AsExitError err); [| emits_step].
    destruct (negb _); emits_step.
Qed.

Lemma emits_execStep e step req dir files :
  emits notWrite (execStep W e step req dir files).
Proof.
  unfold execStep. emits_step; [apply emits_validateVersion |].
  destruct a; [emits_step |].
  emits_step; [apply emits_copyFiles |].
  destruct a; [emits_step |].
  emits_step; [apply emits_exec |].
  destruct a as [[stdout stderr] [err |]]; emits_step.
Qed.

Lemma emits_execRest e req dir rest out :
  emits notWrite (execRest W e req dir rest out).
Proof.
  revert out. induction rest as [| step rest IH]; intros out; simpl.
  - emits_step.
  - emits_step; [apply emits_execStep |].
    destruct (negb _); [emits_step | apply IH].
Qed.

Lemma emits_pipeline e req dir : emits notWrite (pipeline W e req dir).
Proof.
  assert (Hrun : emits notWrite (runSteps W e req dir)).
  { unfold runSteps. destruct (Command.Steps _); [emits_step |].
    emits_step; [apply emits_execStep |].
    destruct (_ && _); [apply emits_execRest | emits_step]. }
  assert (Hclean : forall out, emits notWrite (cleanup W e req dir out)).
  { intros out. unfold cleanup. destruct (Command.After _); [| emits_step].
    emits_step; [apply emits_execStep |].
    destruct (_ && _); emits_step. }
  unfold pipeline. destruct (Command.Before _).
  - emits_step; [apply emits_execStep |].
    destruct (negb _); [emits_step |].
    emits_step; [exact Hrun | apply Hclean].
  - emits_step; [exact Hrun | apply Hclean].
Qed.

Lemma writeFiles_cons e dir name content files t :
  writeFiles W e dir ((name, content) :: files) t =
    match WriteFile W t (stagedPath W e dir (name, content)) content 292 with
    | Some err =>
        (Ret (Some err), t ++ [stagedEvent W e dir (name, content)])
    | None =>
        writeFiles W e dir files (t ++ [stagedEvent W e dir (name, content)])
    end.
Proof.
  unfold writeFiles at 1. cbn [Range]. unfold bind, call, ret.
  unfold stagedEvent, stagedPath, stagedName. cbn [fst snd].
  destruct (WriteFile W t _ content 292); reflexivity.
Qed.

Lemma writeFiles_trace e dir files t :
  exists k,
    k <= List.length files
    /\ snd (writeFiles W e dir files t)
       = t ++ map (stagedEvent W e dir) (firstn k files)
    /\ (fst (writeFiles W e dir files t) = Ret None -> k = List.length files).
Proof.
  revert t. induction files as [| [name content] files IH]; intros t.
  - exists 0. simpl. rewrite app_nil_r. auto.
  - rewrite writeFiles_cons.
    destruct (WriteFile W t _ content 292) as [err |].
    + exists 1. simpl. repeat split; [lia | discriminate].
    + destruct (IH (t ++ [stagedEvent W e dir (name, content)]))
        as [k [Hk [Htr Hall]]].
      exists (S k). simpl. repeat split.
      * lia.
      * rewrite Htr, <- app_assoc. reflexivity.
      * intros H. now rewrite (Hall H).
Qed.

Lemma filesReader_from (files : Files) (input : string) :
  fold_left (fun input f => (input ++ snd f)%string) files input
  = (input ++ fold_right String.append "" (map snd files))%string.
Proof.
  revert input. induction files as [| f files IH]; intros input; simpl.
  - induction input as [| c input IHi]; simpl; [reflexivity | now rewrite <- IHi].
  - rewrite IH. clear IH.
    induction input as [| c input IHi]; simpl; [reflexivity | now rewrite IHi].
Qed.

Lemma filesReader_concat (files : Files) :
  filesReader files = fold_right String.append "" (map snd files).
Proof. unfold filesReader. now rewrite filesReader_from. Qed.

Lemma writtenPaths_staged e dir files :
  writtenPaths (map (stagedEvent W e dir) files) = map (stagedPath W e dir) files.
Proof. induction files as [| f files IH]; simpl; [| rewrite IH]; reflexivity. Qed.

Lemma NoDup_firstn {A} (k : nat) (l : list A) : NoDup l -> NoDup (firstn k l).
Proof.
  intros H. rewrite <- (firstn_skipn k l) in H.
  now apply NoDup_app_remove_r in H.
Qed.

Lemma forallb_negb (P : event -> bool) (l : trace) :
  Forall (fun ev => P ev = false) l ->
  forallb (fun ev => negb (P ev)) l = true.
Proof.
  induction 1 as [| ev l Hev _ IH]; simpl; [reflexivity |].
  now rewrite Hev, IH.
Qed.


Lemma NoDup_map_on {A B} (f : A -> B) (l : list A) :
  (forall x y, In x l -> In y l -> f x = f y -> x = y) ->
  NoDup l -> NoDup (map f l).
Proof.
  intros Hinj Hl. induction Hl as [| a l Hnotin Hl IH]; simpl; constructor.
  - intros Hin. apply in_map_iff in Hin. destruct Hin as [x [Ex Hx]].
    apply Hnotin. rewrite <- (Hinj x a); auto; [now right | now left].
  - apply IH. intros x y Hx Hy. apply Hinj; now right.
Qed.

(** The names under which request files are stored are pairwise distinct
    when the names are, unless the collection holds both the empty name and
    the entry-point filename. *)
Lemma stagedName_distinct e (names : list string) :
  NoDup names ->
  (In "" names -> ~ In (Command.Entry (Docker.cmd e)) names) ->
  NoDup (map (stagedName e) names).
Proof.
  intros Hnames Hclash. apply NoDup_map_on; [| exact Hnames].
  intros x y Hx Hy. unfold stagedName.
  destruct (x =? "") eqn:Ex, (y =? "") eqn:Ey; intros E.
  - apply String.eqb_eq in Ex. apply String.eqb_eq in Ey. congruence.
  - apply String.eqb_eq in Ex. subst x. exfalso.
    apply (Hclash Hx). now rewrite E.
  - apply String.eqb_eq in Ey. subst y. exfalso.
    apply (Hclash Hy). now rewrite <- E.
  - exact E.
Qed.

(** C8, as the code has it.  For every file collection staged by
    [writeFiles]: every write it makes is the write, with mode 0444, of one
    entry of the collection at the path joined from the directory and the
    entry's name, the command's entry-point filename standing in for the
    empty name; when no write fails, every entry with an empty name has been
    written under the entry-point filename.  No two files are staged under
    the same path provided that the names are pairwise distinct, that the
    collection does not hold both the empty name and the entry-point
    filename, and that [filepath.Join] does not send two of the names to the
    same path. *)
Theorem writeFiles_entry_and_distinct_paths e dir files t :
  exists new,
    snd (writeFiles W e dir files t) = t ++ new
    /\ Forall (fun ev =>
                 exists name content,
                   In (name, content) files
                   /\ ev = EvWriteFile
                             (Join W dir (if name =? ""
                                          then Command.Entry (Docker.cmd e)
                                          else name))
                             content 292) new
    /\ (fst (writeFiles W e dir files t) = Ret None ->
        forall content,
          In ("", content) files ->
          In (EvWriteFile (Join W dir (Command.Entry (Docker.cmd e))) content 292)
             new)
    /\ (NoDup (map fst files) ->
        (In "" (map fst files) ->
         ~ In (Command.Entry (Docker.cmd e)) (map fst files)) ->
        (forall a b,
           In a (map (stagedName e) (map fst files)) ->
           In b (map (stagedName e) (map fst files)) ->
           Join W dir a = Join W dir b -> a = b) ->
        NoDup (writtenPaths new)).
Proof.
  destruct (writeFiles_trace e dir files t) as [k [_ [Htr Hall]]].
  exists (map (stagedEvent W e dir) (firstn k files)).
  split; [exact Htr |]. split; [| split].
  - apply Forall_forall. intros ev Hin. apply in_map_iff in Hin.
    destruct Hin as [[name content] [<- Hin]]. exists name, content. split.
    + rewrite <- (firstn_skipn k files). apply in_or_app. now left.
    + reflexivity.
  - intros Hok content Hin. rewrite (Hall Hok), firstn_all.
    apply in_map_iff. exists ("", content). split; [reflexivity | exact Hin].
  - intros Hnames Hclash Hjoin.
    rewrite writtenPaths_staged, <- firstn_map. apply NoDup_firstn.
    assert (Hpaths : map (stagedPath W e dir) files
                     = map (Join W dir) (map (stagedName e) (map fst files))).
    { rewrite !map_map. reflexivity. }
    rewrite Hpaths. apply NoDup_map_on; [exact Hjoin |].
    now apply stagedName_distinct.
Qed.

(** ** The events of an execution *)

Lemma emits_copyFiles_step req box dir :
  emits (stepEvent req dir) (copyFiles W box dir).
Proof.
  unfold copyFiles. destruct box as [b |]; [| emits_step].
  destruct (_ =? _)%nat; [emits_step |].
  induction (Box.Files b) as [| pattern ps IH]; simpl; [emits_step |].
  emits_step; [emits_step |]. destruct a; [emits_step | exact IH].
Qed.

Lemma emits_exec_step box step req dir files :
  emits (stepEvent req dir) (exec W box step req dir files).
Proof.
  unfold exec. emits_step; [apply emits_buildArgs |].
  emits_step; [emits_step |].
  destruct a0 as [[stdout stderr] [err |]]; [| emits_step].
  destruct (_ =? _).
  - emits_step; [| emits_step].
    destruct (_ =? _); [| emits_step].
    unfold dockerKill. emits_step.
  - destruct (ext.AsExitError err); [| emits_step].
    destruct (negb _); emits_step.
Qed.

Lemma emits_execStep_step e step req dir files :
  emits (stepEvent req dir) (execStep W e step req dir files).
Proof.
  unfold execStep. emits_step; [apply emits_validateVersion |].
  destruct a; [emits_step |].
  emits_step; [apply emits_copyFiles_step |].
  destruct a; [emits_step |].
  emits_step; [apply emits_exec_step |].
  destruct a as [[stdout stderr] [err |]]; emits_step.
Qed.

Lemma emits_execRest_step e req dir rest out :
  emits (stepEvent req dir) (execRest W e req dir rest out).
Proof.
  revert out. induction rest as [| step rest IH]; intros out; simpl.
  - emits_step.
  - emits_step; [apply emits_execStep_step |].
    destruct (negb _); [emits_step | apply IH].
Qed.

Lemma emits_runSteps_step e req dir :
  emits (stepEvent req dir) (runSteps W e req dir).
Proof.
  unfold runSteps. destruct (Command.Steps _); [emits_step |].
  emits_step; [apply emits_execStep_step |].
  destruct (_ && _); [apply emits_execRest_step | emits_step].
Qed.

Lemma emits_cleanup_step e req dir out :
  emits (stepEvent req dir) (cleanup W e req dir out).
Proof.
  unfold cleanup. destruct (Command.After _); [| emits_step].
  emits_step; [apply emits_execStep_step |].
  destruct (_ && _); emits_step.
Qed.

Lemma emits_pipeline_step e req dir :
  emits (stepEvent req dir) (pipeline W e req dir).
Proof.
  unfold pipeline. destruct (Command.Before _).
  - emits_step; [apply emits_execStep_step |].
    destruct (negb _); [emits_step |].
    emits_step; [apply emits_runSteps_step | apply emits_cleanup_step].
  - emits_step; [apply emits_runSteps_step | apply emits_cleanup_step].
Qed.

Lemma emits_writeFiles e dir files :
  emits (stageEvent W e files dir) (writeFiles W e dir files).
Proof.
  intros t. destruct (writeFiles_trace e dir files t) as [k [_ [Htr _]]].
  exists (map (stagedEvent W e dir) (firstn k files)). split; [exact Htr |].
  apply Forall_forall. intros ev Hin. apply in_map_iff in Hin.
  destruct Hin as [f [Hev Hin]]. exists f. split; [| now symmetry].
  rewrite <- (firstn_skipn k files). apply in_or_app. now left.
Qed.

Lemma emits_stage e req dir :
  emits (stageEvent W e (Request.Files req) dir) (stage W e req dir).
Proof.
  unfold stage. destruct (negb _); [apply emits_writeFiles | emits_step].
Qed.

(** The part of [Exec] that the deferred removal guards. *)
Lemma emits_Exec_body e req dir :
  emits (workEvent W e req dir)
    (bind (stage W e req dir)
       (fun err =>
          match err with
          | Some err =>
              ret (Fail W (Request.ID req)
                     (NewExecutionError "write files to temp dir" (External err)))
          | None => pipeline W e req dir
          end)).
Proof.
  emits_step.
  - eapply emits_weaken; [| apply emits_stage]. intros ev H. now left.
  - destruct a; [emits_step |].
    eapply emits_weaken; [| apply emits_pipeline_step]. intros ev H. now right.
Qed.

Lemma Exec_mkdir_failed e req t0 dir err :
  MkdirTemp W t0 = (dir, Some err) ->
  Exec W e req t0
  = (Ret (Fail W (Request.ID req)
            (NewExecutionError "create temp dir" (External err))),
     t0 ++ [EvMkdirTemp]).
Proof.
  intros Hdir. unfold Exec. unfold bind at 1. now rewrite call_eq, Hdir.
Qed.

Lemma Exec_mkdir_done e req t0 dir :
  MkdirTemp W t0 = (dir, None) ->
  exists r work,
    Exec W e req t0 = (r, t0 ++ EvMkdirTemp :: work ++ [EvRemoveAll dir])
    /\ Forall (workEvent W e req dir) work.
Proof.
  intros Hdir. unfold Exec. unfold bind at 1. rewrite call_eq, Hdir.
  unfold defer.
  destruct (emits_Exec_body e req dir (t0 ++ [EvMkdirTemp])) as [work [Htr Hall]].
  match goal with
  | |- context [let (r, t') := ?body ?t in _] =>
      destruct (body t) as [r t1]
  end.
  simpl in Htr. subst t1. exists r, work. simpl. split; [| exact Hall].
  now rewrite <- !app_assoc.
Qed.

(** X1.  The scratch directory never outlives the call.  If the directory
    cannot be made, [Exec] does nothing else and reports the failure as an
    [ExecutionError] labelled [create temp dir].  If it is made, then
    however the call ends, a panic included, the last thing [Exec] does is
    to remove that directory; in between it makes and removes no directory:
    everything it does there is a write, with mode 0444, of one of the
    request's files at the path that [filepath.Join] gives for the directory
    and the file's name (the entry-point filename for the empty name), a
    copy into the directory, a run of [docker] under the request's
    identifier, or a detached [docker kill] of that identifier.  Where the
    joined path lies is up to [filepath.Join], which cleans the path: a name
    with [..] in it is not kept under the directory. *)
Theorem Exec_removes_temp_dir e req t0 :
  match MkdirTemp W t0 with
  | (dir, None) =>
      exists work,
        snd (Exec W e req t0) = t0 ++ EvMkdirTemp :: work ++ [EvRemoveAll dir]
        /\ Forall (workEvent W e req dir) work
        /\ forallb (fun ev => negb (isRemoveAll ev || isMkdirTemp ev)) work = true
  | (_, Some err) =>
      Exec W e req t0
      = (Ret (Fail W (Request.ID req)
                (NewExecutionError "create temp dir" (External err))),
         t0 ++ [EvMkdirTemp])
  end.
Proof.
  destruct (MkdirTemp W t0) as [dir [err |]] eqn:Hdir.
  - now apply Exec_mkdir_failed with (dir := dir).
  - destruct (Exec_mkdir_done e req t0 dir Hdir) as [r [work [HE Hall]]].
    exists work. rewrite HE. split; [reflexivity |]. split; [exact Hall |].
    apply forallb_forall. rewrite Forall_forall in Hall.
    intros ev Hin. specialize (Hall ev Hin).
    destruct Hall as [[f [_ ->]] | Hstep]; [reflexivity |].
    destruct ev; simpl in *; try reflexivity; contradiction.
Qed.

(** ** More on the file stager *)

Lemma writeAnswer_cons e dir f files t k :
  writeAnswer W e dir (f :: files) t (S k)
  = writeAnswer W e dir files (t ++ [stagedEvent W e dir f]) k.
Proof.
  unfold writeAnswer. simpl. now rewrite <- app_assoc.
Qed.

Lemma writeFiles_returns e dir files t :
  exists o, fst (writeFiles W e dir files t) = Ret o.
Proof.
  revert t. induction files as [| [name content] files IH]; intros t.
  - exists None. reflexivity.
  - rewrite writeFiles_cons.
    destruct (WriteFile W t _ content 292); [eexists; reflexivity | apply IH].
Qed.

(** What [writeFiles] does with the entries in the order [files] in which
    its iteration yields them. *)
Lemma writeFiles_outcome e dir files t :
  exists o,
    fst (writeFiles W e dir files t) = Ret o
    /\ match o with
       | None =>
           snd (writeFiles W e dir files t)
           = t ++ map (stagedEvent W e dir) files
           /\ forall k, writeAnswer W e dir files t k = None
       | Some err =>
           exists k,
             k < List.length files
             /\ writeAnswer W e dir files t k = Some err
             /\ (forall j, j < k -> writeAnswer W e dir files t j = None)
             /\ snd (writeFiles W e dir files t)
                = t ++ map (stagedEvent W e dir) (firstn (S k) files)
       end.
Proof.
  revert t. induction files as [| [name content] files IH]; intros t.
  - exists None. split; [reflexivity |]. split.
    + simpl. now rewrite app_nil_r.
    + intros k. unfold writeAnswer. now destruct k.
  - rewrite writeFiles_cons.
    destruct (WriteFile W t _ content 292) as [err |] eqn:Hw.
    + exists (Some err). split; [reflexivity |]. exists 0.
      repeat split.
      * simpl. lia.
      * unfold writeAnswer. simpl. now rewrite app_nil_r.
      * intros j Hj. lia.
    + destruct (IH (t ++ [stagedEvent W e dir (name, content)]))
        as [o [Hres Ho]].
      exists o. split; [exact Hres |]. destruct o as [err |].
      * destruct Ho as [k [Hk [Hans [Hbefore Htr]]]].
        exists (S k). repeat split.
        -- simpl. lia.
        -- now rewrite writeAnswer_cons.
        -- intros [| j] Hj.
           ++ unfold writeAnswer. simpl. now rewrite app_nil_r.
           ++ rewrite writeAnswer_cons. apply Hbefore. lia.
        -- rewrite Htr, <- app_assoc. reflexivity.
      * destruct Ho as [Htr Hall]. split.
        -- rewrite Htr, <- app_assoc. reflexivity.
        -- intros [| k].
           ++ unfold writeAnswer. simpl. now rewrite app_nil_r.
           ++ rewrite writeAnswer_cons. apply Hall.
Qed.

(** X2.  [writeFiles] never panics.  Let [order] be the entries of the map
    [m] as its iteration yields them.  [writeFiles] makes the writes one by
    one in that order and stops at the first write that fails.  It returns
    no error exactly when no write failed, and then every entry of the map
    has been written exactly once; otherwise it returns the error of the
    first failing write, that write is the last call it makes, and the
    entries written so far are distinct entries of the map. *)
Theorem writeFiles_first_error e dir m order t :
  iteration m order ->
  exists o,
    fst (writeFiles W e dir order t) = Ret o
    /\ match o with
       | None =>
           exists new,
             snd (writeFiles W e dir order t) = t ++ new
             /\ Permutation new (map (stagedEvent W e dir) m)
             /\ forall k, writeAnswer W e dir order t k = None
       | Some err =>
           exists k rest,
             k < List.length order
             /\ writeAnswer W e dir order t k = Some err
             /\ (forall j, j < k -> writeAnswer W e dir order t j = None)
             /\ snd (writeFiles W e dir order t)
                = t ++ map (stagedEvent W e dir) (firstn (S k) order)
             /\ Permutation (firstn (S k) order ++ rest) m
       end.
Proof.
  unfold iteration. intros Hperm.
  destruct (writeFiles_outcome e dir order t) as [o [Hres Ho]].
  exists o. split; [exact Hres |]. destruct o as [err |].
  - destruct Ho as [k [Hk [Hans [Hbefore Htr]]]].
    exists k, (skipn (S k) order). repeat split; auto.
    now rewrite firstn_skipn.
  - destruct Ho as [Htr Hall].
    exists (map (stagedEvent W e dir) order). repeat split; auto.
    now apply Permutation_map.
Qed.

(** X3.  If a request file cannot be stored, [Exec] reports an
    [ExecutionError] labelled [write files to temp dir] and runs no step:
    after the writes it only removes the directory. *)
Theorem Exec_write_failure e req t0 dir t1 err :
  MkdirTemp W t0 = (dir, None) ->
  stage W e req dir (t0 ++ [EvMkdirTemp]) = (Ret (Some err), t1) ->
  Exec W e req t0
  = (Ret (Fail W (Request.ID req)
            (NewExecutionError "write files to temp dir" (External err))),
     t1 ++ [EvRemoveAll dir])
  /\ exists writes,
       t1 = t0 ++ EvMkdirTemp :: writes
       /\ Forall (stageEvent W e (Request.Files req) dir) writes.
Proof.
  intros Hdir Hstage. split.
  - unfold Exec. unfold bind at 1. rewrite call_eq, Hdir.
    unfold defer. now rewrite (bind_Ret _ _ _ _ _ Hstage).
  - destruct (emits_stage e req dir (t0 ++ [EvMkdirTemp])) as [writes [Htr Hall]].
    rewrite Hstage in Htr. simpl in Htr. exists writes.
    split; [| exact Hall]. now rewrite Htr, <- app_assoc.
Qed.

(** X4.  When the command names no entry-point file, [Exec] writes no file
    at all, whatever the request holds. *)
Theorem Exec_no_entry_no_writes e req t0 :
  Command.Entry (Docker.cmd e) = "" ->
  exists new,
    snd (Exec W e req t0) = t0 ++ new
    /\ forallb (fun ev => negb (isWrite ev)) new = true.
Proof.
  intros Hentry. unfold Exec. unfold bind at 1. rewrite call_eq.
  destruct (MkdirTemp W t0) as [dir [err |]].
  - exists [EvMkdirTemp]. split; reflexivity.
  - unfold defer, stage. rewrite Hentry. simpl negb. cbv iota.
    unfold bind, ret.
    destruct (emits_pipeline e req dir (t0 ++ [EvMkdirTemp])) as [new [Htr Hall]].
    destruct (pipeline W e req dir (t0 ++ [EvMkdirTemp])) as [r t1].
    simpl in Htr. subst t1. exists (EvMkdirTemp :: new ++ [EvRemoveAll dir]).
    split.
    + simpl. now rewrite <- !app_assoc.
    + simpl. rewrite forallb_app, (forallb_negb _ _ Hall). reflexivity.
Qed.

(** ** More on the pipeline controller *)

Lemma last_map {A B} (f : A -> B) (l : list A) (d : A) :
  last (map f l) (f d) = f (last l d).
Proof.
  induction l as [| a l IH]; [reflexivity |].
  destruct l; [reflexivity |]. exact IH.
Qed.

Lemma restLog_prefix e req dir rest t log t' :
  restLog W e req dir rest t = (Ret log, t') ->
  map fst log = firstn (List.length log) rest
  /\ Forall succeeded (removelast log).
Proof.
  revert t log t'. induction rest as [| s rest IH]; intros t log t'; simpl.
  - unfold ret. intros H. inversion H. split; [reflexivity | constructor].
  - destruct (execStep W e s req dir [] t) as [[o | msg] t1] eqn:E;
      run_bind E; [| discriminate].
    destruct (Execution.OK o) eqn:Ho; simpl.
    + destruct (restLog W e req dir rest t1) as [[log1 | msg] t2] eqn:E1;
        run_bind E1; [| discriminate].
      unfold ret. intros H. inversion H; subst.
      destruct (IH _ _ _ E1) as [Hsteps Hdone]. split.
      * simpl. now rewrite Hsteps.
      * destruct log1 as [| x log1]; [constructor |].
        change (removelast ((s, o) :: x :: log1))
          with ((s, o) :: removelast (x :: log1)).
        constructor; [exact Ho | exact Hdone].
    + unfold ret. intros H. inversion H; subst.
      split; [reflexivity | constructor].
Qed.

(** X5.  The run steps are executed in the order of the configuration and
    the sequence stops at the first step that fails: the steps that ran are
    a leading part of the configured ones, all of them but the last
    succeeded, and what [runSteps] returns is the outcome of the last step
    that ran.  If that outcome is a success, every configured step ran. *)
Theorem runSteps_short_circuit e req dir t log t' :
  runLog W e req dir t = (Ret log, t') ->
  exists done step out,
    log = done ++ [(step, out)]
    /\ Forall succeeded done
    /\ map fst log = firstn (List.length log) (Command.Steps (Docker.cmd e))
    /\ runSteps W e req dir t = (Ret out, t')
    /\ (Execution.OK out = true ->
        map fst log = Command.Steps (Docker.cmd e)).
Proof.
  intros Hlog.
  destruct (runLog_runSteps _ _ _ _ _ _ Hlog) as [out [Hrun [Hbad Hgood]]].
  revert Hlog Hrun. unfold runLog, runSteps.
  destruct (Command.Steps (Docker.cmd e)) as [| first rest]; [discriminate |].
  destruct (execStep W e first req dir (Request.Files req) t)
    as [[o1 | msg] t1] eqn:E; run_bind E; [| discriminate].
  destruct (Execution.OK o1 && (0 <? List.length rest)%nat) eqn:Hgo.
  - pose proof (restLog_execRest e req dir rest o1 t1) as Hrest.
    destruct (restLog W e req dir rest t1) as [[log1 | msg] t2] eqn:E1;
      run_bind E1; [| discriminate].
    unfold ret. intros Hlog Hrun. inversion Hlog; subst.
    rewrite Hrest in Hrun. inversion Hrun as [Hout].
    destruct (restLog_prefix _ _ _ _ _ _ _ E1) as [Hsteps Hdone].
    apply andb_true_iff in Hgo. destruct Hgo as [Ho1 _].
    exists (removelast ((first, o1) :: log1)),
           (fst (last log1 (first, o1))), (snd (last log1 (first, o1))).
    split; [| split; [| split; [| split]]].
    + rewrite <- surjective_pairing, <- last_cons_default with (d := (first, o1)).
      apply app_removelast_last. discriminate.
    + destruct log1 as [| x log1]; [constructor |].
      change (removelast ((first, o1) :: x :: log1))
        with ((first, o1) :: removelast (x :: log1)).
      constructor; [exact Ho1 | exact Hdone].
    + simpl. now rewrite Hsteps.
    + rewrite Hrest. f_equal. f_equal. apply (last_map snd log1 (first, o1)).
    + intros Hok. rewrite <- (last_map snd log1 (first, o1)) in Hok.
      cbn [snd] in Hok. rewrite Hout in Hok.
      assert (Hall : Forall succeeded ((first, o1) :: log1)).
      { apply Forall_forall. intros [s o] Hin.
        destruct (Execution.OK o) eqn:Ho; [exact Ho |].
        unfold succeeded. simpl. rewrite (Hbad s o Hin Ho). exact Hok. }
      now apply Hgood.
  - unfold ret. intros Hlog Hrun. inversion Hlog; subst. inversion Hrun; subst.
    exists [], first, out. repeat split; try constructor.
    intros Hok. rewrite Hok in Hgo. simpl in Hgo.
    destruct rest; [reflexivity | discriminate].
Qed.

(** X6.  A command without run steps makes [Exec] panic once the setup step
    (if any) has passed: [Steps[0], Steps[1:]] on the empty slice is a slice
    bounds out of range [1:0].  No run or cleanup step is invoked, and the
    scratch directory is removed all the same. *)
Theorem Exec_no_steps_panics e req t0 dir t1 t1' :
  Command.Steps (Docker.cmd e) = [] ->
  MkdirTemp W t0 = (dir, None) ->
  stage W e req dir (t0 ++ [EvMkdirTemp]) = (Ret None, t1) ->
  setupPassed W e req dir t1 t1' ->
  Exec W e req t0
  = (Panic "slice bounds out of range [1:0]", t1' ++ [EvRemoveAll dir]).
Proof.
  intros Hsteps Hdir Hstage Hsetup.
  rewrite (Exec_unfold _ _ _ _ _ Hdir Hstage).
  rewrite (pipeline_after_setup _ _ _ _ _ Hsetup).
  unfold bind, runSteps. rewrite Hsteps. reflexivity.
Qed.

(** ** More on the outcome classification *)

Lemma buildArgs_trace box step req dir t :
  snd (buildArgs W box step req dir t) = t.
Proof.
  unfold buildArgs, bind, ret, panic.
  destruct (Step.Action step =? actionRun); [destruct box; reflexivity |].
  destruct (Step.Action step =? actionExec); reflexivity.
Qed.

Lemma validateVersion_trace box step req t :
  snd (validateVersion box step req t) = t.
Proof.
  unfold validateVersion, ret, panic.
  destruct (_ && _); [| reflexivity].
  destruct box; [| reflexivity]. destruct (negb _); reflexivity.
Qed.

Lemma exec_panic box step req dir files t msg t1 :
  buildArgs W box step req dir t = (Panic msg, t1) ->
  exec W box step req dir files t = (Panic msg, t1).
Proof. intros Ha. unfold exec. now rewrite (bind_Panic _ _ _ _ _ Ha). Qed.

(** X7.  When the invoker's error is neither the timeout kill nor an exit
    error (the process could not be run), the step fails with an
    [ExecutionError] labelled [execute code] around that error, the captured
    output is returned as it is, and nothing is killed: the invocation is
    the last call of the step. *)
Theorem execStep_other_error e step req dir files t t0 t1 args stdout stderr err :
  validateVersion (Config.Boxes (Docker.cfg e) (Step.Box step)) step req t
    = (Ret None, t0) ->
  copyFiles W (Config.Boxes (Docker.cfg e) (Step.Box step)) dir t0
    = (Ret None, t1) ->
  buildArgs W (Config.Boxes (Docker.cfg e) (Step.Box step)) step req dir t1
    = (Ret args, t1) ->
  runAnswer W t1 step req files args = (stdout, stderr, Some err) ->
  ext.Error err <> killed ->
  ext.AsExitError err = false ->
  exec W (Config.Boxes (Docker.cfg e) (Step.Box step)) step req dir files t1
  = (Ret (stdout, stderr,
          Some (ExecutionError "execute code" (External err))),
     t1 ++ [runEvent step req files args])
  /\ execStep W e step req dir files t
     = (Ret (Fail W (Request.ID req)
               (ExecutionError "execute code" (External err))),
        t1 ++ [runEvent step req files args]).
Proof.
  intros Hv Hc Hargs Hrun Hk Hx.
  assert (Hexec :
            exec W (Config.Boxes (Docker.cfg e) (Step.Box step)) step req dir
              files t1
            = (Ret (stdout, stderr,
                    Some (ExecutionError "execute code" (External err))),
               t1 ++ [runEvent step req files args])).
  { rewrite (exec_unfold _ _ _ _ _ _ _ _ Hargs), Hrun.
    apply String.eqb_neq in Hk. now rewrite Hk, Hx. }
  split; [exact Hexec |].
  rewrite (execStep_unfold _ _ _ _ _ _ _ _ Hv Hc).
  now rewrite (bind_Ret _ _ _ _ _ Hexec).
Qed.

(** X8.  Provided [Fail] never builds a successful execution: whenever a
    step returns a successful outcome, the process was invoked, the
    invocation is the last call the step made, the invoker reported no
    error, and the outcome is the request's identifier with the stdout and
    stderr that the invoker captured, unchanged. *)
Theorem execStep_success e step req dir files t out t' :
  (forall id err, Execution.OK (Fail W id err) = false) ->
  execStep W e step req dir files t = (Ret out, t') ->
  Execution.OK out = true ->
  exists t1 args,
    t' = t1 ++ [runEvent step req files args]
    /\ buildArgs W (Config.Boxes (Docker.cfg e) (Step.Box step)) step req dir t1
       = (Ret args, t1)
    /\ runAnswer W t1 step req files args
       = (Execution.Stdout out, Execution.Stderr out, None)
    /\ Execution.ID out = Request.ID req
    /\ Execution.Err out = None.
Proof.
  intros HFail. unfold execStep.
  set (box := Config.Boxes (Docker.cfg e) (Step.Box step)).
  destruct (validateVersion box step req t) as [[[verr |] | msg] tv] eqn:Hv;
    run_bind Hv; try discriminate.
  { unfold ret. intros H Hok. inversion H; subst. now rewrite HFail in Hok. }
  destruct (copyFiles W box dir tv) as [[[cerr |] | msg] tc] eqn:Hc;
    run_bind Hc; try discriminate.
  { unfold ret. intros H Hok. inversion H; subst. now rewrite HFail in Hok. }
  pose proof (buildArgs_trace box step req dir tc) as Hbt.
  destruct (buildArgs W box step req dir tc) as [[args | msg] ta] eqn:Ha;
    simpl in Hbt; subst ta.
  2:{ rewrite (bind_Panic _ _ _ _ _ (exec_panic _ _ _ _ files _ _ _ Ha)).
      discriminate. }
  unfold bind at 1. rewrite (exec_unfold _ _ _ _ _ _ _ _ Ha).
  destruct (runAnswer W tc step req files args) as [[so se] [err |]] eqn:Hrun.
  - intros H Hok. exfalso.
    destruct (ext.Error err =? killed).
    + destruct (Step.Action step =? actionRun);
        unfold bind, call, ret in H; simpl in H;
        inversion H; subst; now rewrite HFail in Hok.
    + destruct (ext.AsExitError err);
        [destruct (negb ((so ++ se)%string =? "")) |];
        unfold ret in H; inversion H; subst; now rewrite HFail in Hok.
  - unfold ret. intros H Hok. inversion H; subst. simpl.
    exists tc, args. repeat split; [exact Ha | exact Hrun].
Qed.

(** X9.  A step issues the detached [docker kill] only for a timeout of a
    fresh container: after the invocation there is either nothing or that
    one kill, and the kill is there exactly when the step's action is [run]
    and the invoker's error is the timeout kill.  A success, a nonzero exit
    and any other error kill nothing. *)
Theorem exec_kill_iff box step req dir files t args :
  buildArgs W box step req dir t = (Ret args, t) ->
  exists res kills,
    exec W box step req dir files t
    = (Ret res, t ++ runEvent step req files args :: kills)
    /\ (kills = [] \/ kills = [EvGo "docker" ["kill"; Request.ID req]])
    /\ (kills <> [] <->
        Step.Action step = actionRun
        /\ exists stdout stderr err,
             runAnswer W t step req files args = (stdout, stderr, Some err)
             /\ ext.Error err = killed).
Proof.
  intros Hargs. rewrite (exec_unfold _ _ _ _ _ _ _ _ Hargs).
  destruct (runAnswer W t step req files args) as [[so se] [err |]].
  - destruct (ext.Error err =? killed) eqn:Hk.
    + apply String.eqb_eq in Hk.
      destruct (Step.Action step =? actionRun) eqn:Ha.
      * apply String.eqb_eq in Ha.
        exists (so, se, Some ErrTimeout), [EvGo "docker" ["kill"; Request.ID req]].
        split; [unfold bind, call, ret; simpl; now rewrite <- app_assoc |].
        split; [now right |]. split; [| discriminate].
        intros _. split; [exact Ha |]. now exists so, se, err.
      * apply String.eqb_neq in Ha.
        exists (so, se, Some ErrTimeout), []. split; [reflexivity |].
        split; [now left |]. split; [congruence |]. intros [Hrun _]. congruence.
    + apply String.eqb_neq in Hk.
      destruct (ext.AsExitError err);
        [destruct (negb ((so ++ se)%string =? "")) |];
        eexists; exists []; (split; [reflexivity |]); (split; [now left |]);
        (split; [congruence |]);
        intros [_ [so' [se' [err' [E Hk']]]]]; inversion E; subst; congruence.
  - eexists. exists []. split; [reflexivity |]. split; [now left |].
    split; [congruence |]. intros [_ [so' [se' [err' [E _]]]]]. discriminate.
Qed.

(** ** Box files *)

Lemma copyPatterns_cons dir p ps t :
  copyPatterns W (p :: ps) dir t =
    match CopyFiles W t p dir with
    | Some err => (Ret (Some err), t ++ [copyEvent dir p])
    | None => copyPatterns W ps dir (t ++ [copyEvent dir p])
    end.
Proof.
  cbn [copyPatterns]. unfold bind, call, ret.
  destruct (CopyFiles W t p dir); reflexivity.
Qed.

Lemma copyPatterns_returns dir patterns t :
  exists o k,
    copyPatterns W patterns dir t
    = (Ret o, t ++ map (copyEvent dir) (firstn k patterns)).
Proof.
  revert t. induction patterns as [| p ps IH]; intros t.
  - exists None, 0. simpl. now rewrite app_nil_r.
  - rewrite copyPatterns_cons. destruct (CopyFiles W t p dir) as [err |].
    + exists (Some err), 1. reflexivity.
    + destruct (IH (t ++ [copyEvent dir p])) as [o [k E]].
      exists o, (S k). rewrite E, <- app_assoc. reflexivity.
Qed.

Lemma copyFiles_returns box dir t :
  exists o patterns,
    copyFiles W box dir t = (Ret o, t ++ map (copyEvent dir) patterns).
Proof.
  unfold copyFiles. destruct box as [b |].
  - destruct (_ =? _)%nat.
    + exists None, []. simpl. now rewrite app_nil_r.
    + destruct (copyPatterns_returns dir (Box.Files b) t) as [o [k E]].
      eexists. eexists. exact E.
  - exists None, []. simpl. now rewrite app_nil_r.
Qed.

Lemma copyPatterns_first_error dir patterns t :
  exists o,
    fst (copyPatterns W patterns dir t) = Ret o
    /\ match o with
       | None =>
           snd (copyPatterns W patterns dir t)
           = t ++ map (copyEvent dir) patterns
           /\ forall k, copyAnswer W dir patterns t k = None
       | Some err =>
           exists k,
             k < List.length patterns
             /\ copyAnswer W dir patterns t k = Some err
             /\ (forall j, j < k -> copyAnswer W dir patterns t j = None)
             /\ snd (copyPatterns W patterns dir t)
                = t ++ map (copyEvent dir) (firstn (S k) patterns)
       end.
Proof.
  assert (Hshift : forall p ps t k,
             copyAnswer W dir (p :: ps) t (S k)
             = copyAnswer W dir ps (t ++ [copyEvent dir p]) k).
  { intros p ps t1 k. unfold copyAnswer. simpl. now rewrite <- app_assoc. }
  assert (Hzero : forall p ps t,
             copyAnswer W dir (p :: ps) t 0 = CopyFiles W t p dir).
  { intros p ps t1. unfold copyAnswer. simpl. now rewrite app_nil_r. }
  revert t. induction patterns as [| p ps IH]; intros t.
  - exists None. split; [reflexivity |]. split.
    + simpl. now rewrite app_nil_r.
    + intros k. unfold copyAnswer. now destruct k.
  - rewrite copyPatterns_cons.
    destruct (CopyFiles W t p dir) as [err |] eqn:Hw.
    + exists (Some err). split; [reflexivity |]. exists 0. repeat split.
      * simpl. lia.
      * now rewrite Hzero.
      * intros j Hj. lia.
    + destruct (IH (t ++ [copyEvent dir p])) as [o [Hres Ho]].
      exists o. split; [exact Hres |]. destruct o as [err |].
      * destruct Ho as [k [Hk [Hans [Hbefore Htr]]]].
        exists (S k). repeat split.
        -- simpl. lia.
        -- now rewrite Hshift.
        -- intros [| j] Hj; [now rewrite Hzero |].
           rewrite Hshift. apply Hbefore. lia.
        -- rewrite Htr, <- app_assoc. reflexivity.
      * destruct Ho as [Htr Hall]. split.
        -- rewrite Htr, <- app_assoc. reflexivity.
        -- intros [| k]; [now rewrite Hzero |]. rewrite Hshift. apply Hall.
Qed.

(** X10.  [copyFiles] never panics.  For a box that is not declared (a nil
    pointer) it does nothing and reports no error.  For a declared box it
    copies the box's patterns in order into the directory and stops at the
    first copy that fails: it returns no error exactly when every pattern
    was copied, and otherwise the error of the first failing copy, which is
    the last call it makes. *)
Theorem copyFiles_first_error box dir t :
  exists o,
    fst (copyFiles W box dir t) = Ret o
    /\ match box with
       | None => o = None /\ snd (copyFiles W box dir t) = t
       | Some b =>
           match o with
           | None =>
               snd (copyFiles W box dir t)
               = t ++ map (copyEvent dir) (Box.Files b)
               /\ forall k, copyAnswer W dir (Box.Files b) t k = None
           | Some err =>
               exists k,
                 k < List.length (Box.Files b)
                 /\ copyAnswer W dir (Box.Files b) t k = Some err
                 /\ (forall j, j < k ->
                     copyAnswer W dir (Box.Files b) t j = None)
                 /\ snd (copyFiles W box dir t)
                    = t ++ map (copyEvent dir) (firstn (S k) (Box.Files b))
           end
       end.
Proof.
  unfold copyFiles. destruct box as [b |].
  - destruct (Box.Files b) as [| p ps] eqn:Hfiles.
    + exists None. split; [reflexivity |]. simpl. split.
      * now rewrite app_nil_r.
      * intros k. unfold copyAnswer. now destruct k.
    + change ((List.length (p :: ps) =? 0)%nat) with false. cbv iota.
      apply copyPatterns_first_error.
  - exists None. repeat split.
Qed.

(** X11.  If a box file cannot be copied, the step fails with an
    [ExecutionError] labelled [copy files to temp dir] around the error of
    the copy, and the process is never invoked: the step has only made
    copies into the directory. *)
Theorem execStep_copy_failure e step req dir files t t0 t1 err :
  validateVersion (Config.Boxes (Docker.cfg e) (Step.Box step)) step req t
    = (Ret None, t0) ->
  copyFiles W (Config.Boxes (Docker.cfg e) (Step.Box step)) dir t0
    = (Ret (Some err), t1) ->
  execStep W e step req dir files t
  = (Ret (Fail W (Request.ID req)
            (ExecutionError "copy files to temp dir" (External err))), t1)
  /\ exists patterns,
       t1 = t ++ map (copyEvent dir) patterns.
Proof.
  intros Hv Hc. split.
  - unfold execStep. rewrite (bind_Ret _ _ _ _ _ Hv).
    now rewrite (bind_Ret _ _ _ _ _ Hc).
  - pose proof (validateVersion_trace
                  (Config.Boxes (Docker.cfg e) (Step.Box step)) step req t) as Ht.
    rewrite Hv in Ht. simpl in Ht. subst t0.
    destruct (copyFiles_returns
                (Config.Boxes (Docker.cfg e) (Step.Box step)) dir t)
      as [o [patterns E]].
    rewrite Hc in E. inversion E. now exists patterns.
Qed.

(** ** Panics *)

Lemma execStep_declared_returns e step req dir files t b :
  Config.Boxes (Docker.cfg e) (Step.Box step) = Some b ->
  exists out t', execStep W e step req dir files t = (Ret out, t').
Proof.
  intros Hbox. unfold execStep. rewrite Hbox.
  assert (Hv : exists o, validateVersion (Some b) step req t = (Ret o, t)).
  { unfold validateVersion, ret.
    destruct (_ && _); [destruct (negb _) |]; eexists; reflexivity. }
  destruct Hv as [[verr |] Hv]; rewrite (bind_Ret _ _ _ _ _ Hv);
    [eexists; eexists; reflexivity |].
  destruct (copyFiles_returns (Some b) dir t) as [o [patterns Ec]].
  rewrite (bind_Ret _ _ _ _ _ Ec).
  set (tc := t ++ map (copyEvent dir) patterns) in *.
  destruct o as [cerr |]; [eexists; eexists; reflexivity |].
  destruct (buildArgs_Some b step req dir tc) as [args [Ha _]].
  destruct (exec_trace _ _ _ _ files _ _ _ Ha) as [[[so se] err] [rest E]].
  rewrite (bind_Ret _ _ _ _ _ E).
  destruct err; eexists; eexists; reflexivity.
Qed.

Lemma execStep_undeclared e step req dir files t :
  Config.Boxes (Docker.cfg e) (Step.Box step) = None ->
  if ((Step.Version step =? "") && negb (Request.Version req =? ""))
     || (Step.Action step =? actionRun)
  then execStep W e step req dir files t = (Panic "nil pointer dereference", t)
  else exists out t', execStep W e step req dir files t = (Ret out, t').
Proof.
  intros Hbox. unfold execStep. rewrite Hbox.
  destruct ((Step.Version step =? "") && negb (Request.Version req =? ""))
    eqn:Hcheck.
  - simpl. unfold bind, validateVersion. now rewrite Hcheck.
  - assert (Hv : validateVersion None step req t = (Ret None, t)).
    { unfold validateVersion. now rewrite Hcheck. }
    rewrite (bind_Ret _ _ _ _ _ Hv).
    assert (Hc : copyFiles W None dir t = (Ret None, t)) by reflexivity.
    rewrite (bind_Ret _ _ _ _ _ Hc).
    destruct (Step.Action step =? actionRun) eqn:Ha; simpl.
    + assert (Hb : buildArgs W None step req dir t
                   = (Panic "nil pointer dereference", t)).
      { unfold buildArgs, bind, panic. now rewrite Ha. }
      now rewrite (bind_Panic _ _ _ _ _ (exec_panic _ _ _ _ files _ _ _ Hb)).
    + assert (Hb : exists args,
                 buildArgs W None step req dir t = (Ret args, t)).
      { unfold buildArgs, bind, ret. rewrite Ha.
        destruct (Step.Action step =? actionExec); eexists; reflexivity. }
      destruct Hb as [args Hb].
      destruct (exec_trace _ _ _ _ files _ _ _ Hb) as [[[so se] err] [rest E]].
      rewrite (bind_Ret _ _ _ _ _ E).
      destruct err; eexists; eexists; reflexivity.
Qed.

(** X12.  A step panics exactly when its box is not declared in the
    configuration and the step needs the box: to check a requested version
    (the step pins none and the request names one) or to build the
    arguments of [docker run].  It then panics on the nil pointer before it
    calls anything.  A step on a declared box, and an [exec] step that needs
    no version check, never panic. *)
Theorem execStep_panics_iff e step req dir files t :
  ((exists msg, fst (execStep W e step req dir files t) = Panic msg)
   <-> Config.Boxes (Docker.cfg e) (Step.Box step) = None
       /\ ((Step.Version step = "" /\ Request.Version req <> "")
           \/ Step.Action step = actionRun))
  /\ (forall msg,
        fst (execStep W e step req dir files t) = Panic msg ->
        msg = "nil pointer dereference"
        /\ snd (execStep W e step req dir files t) = t).
Proof.
  destruct (Config.Boxes (Docker.cfg e) (Step.Box step)) as [b |] eqn:Hbox.
  - destruct (execStep_declared_returns e step req dir files t b Hbox)
      as [out [t' E]].
    rewrite E. simpl. split.
    + split; [intros [msg H]; discriminate | intros [H _]; discriminate].
    + intros msg H. discriminate.
  - pose proof (execStep_undeclared e step req dir files t Hbox) as H.
    destruct ((Step.Version step =? "") && negb (Request.Version req =? "")
              || (Step.Action step =? actionRun)) eqn:Hneed.
    + rewrite H. simpl. split.
      * split; [intros _ | intros _; eexists; reflexivity].
        split; [reflexivity |].
        apply orb_true_iff in Hneed. destruct Hneed as [Hneed | Hneed].
        -- left. apply andb_true_iff in Hneed. destruct Hneed as [Hs Hr].
           apply String.eqb_eq in Hs. apply negb_true_iff in Hr.
           apply String.eqb_neq in Hr. now split.
        -- right. now apply String.eqb_eq.
      * intros msg Hm. inversion Hm. now split.
    + destruct H as [out [t' E]]. rewrite E. simpl. split.
      * split; [intros [msg Hm]; discriminate |].
        intros [_ Hcond]. exfalso.
        apply orb_false_iff in Hneed. destruct Hneed as [Hcheck Ha].
        destruct Hcond as [[Hs Hr] | Hrun].
        -- apply String.eqb_eq in Hs. apply String.eqb_neq in Hr.
           rewrite Hs, Hr in Hcheck. discriminate.
        -- apply String.eqb_eq in Hrun. congruence.
      * intros msg Hm. discriminate.
Qed.

Lemma execRest_returns e req dir rest out t :
  Forall (declared e) rest ->
  exists out' t', execRest W e req dir rest out t = (Ret out', t').
Proof.
  intros Hall. revert out t.
  induction Hall as [| step rest Hstep _ IH]; intros out t; simpl.
  - eexists. eexists. reflexivity.
  - destruct (Config.Boxes (Docker.cfg e) (Step.Box step)) as [b |] eqn:Hbox;
      [| now elim Hstep].
    destruct (execStep_declared_returns e step req dir [] t b Hbox)
      as [o [t1 E]].
    rewrite (bind_Ret _ _ _ _ _ E).
    destruct (negb (Execution.OK o)); [eexists; eexists; reflexivity | apply IH].
Qed.

(** X13.  A command with at least one run step, all of whose steps (setup,
    run steps, cleanup) refer to declared boxes, never makes [Exec] panic:
    whatever the outside world answers, [Exec] returns an execution. *)
Theorem Exec_returns e req t0 :
  Command.Steps (Docker.cmd e) <> [] ->
  Forall (declared e) (allSteps e) ->
  exists out, fst (Exec W e req t0) = Ret out.
Proof.
  intros Hsteps Hall. unfold allSteps in Hall.
  apply Forall_app in Hall. destruct Hall as [Hbefore Hall].
  apply Forall_app in Hall. destruct Hall as [Hrun Hafter].
  assert (Hdecl : forall step dir files t,
             declared e step ->
             exists out t', execStep W e step req dir files t = (Ret out, t')).
  { intros step dir files t Hd. unfold declared in Hd.
    destruct (Config.Boxes (Docker.cfg e) (Step.Box step)) as [b |] eqn:Hbox;
      [| now elim Hd].
    now apply execStep_declared_returns with (b := b). }
  assert (Hpipe : forall dir t, exists out t',
             pipeline W e req dir t = (Ret out, t')).
  { intros dir t.
    assert (Hruns : forall t, exists out t',
               runSteps W e req dir t = (Ret out, t')).
    { intros t1. unfold runSteps.
      destruct (Command.Steps (Docker.cmd e)) as [| first rest];
        [now elim Hsteps |].
      inversion Hrun as [| ? ? Hfirst Hrest]; subst.
      destruct (Hdecl first dir (Request.Files req) t1 Hfirst) as [o [t2 E]].
      rewrite (bind_Ret _ _ _ _ _ E).
      destruct (Execution.OK o && (0 <? List.length rest)%nat);
        [now apply execRest_returns | eexists; eexists; reflexivity]. }
    assert (Hclean : forall out t, exists out' t',
               cleanup W e req dir out t = (Ret out', t')).
    { intros out t1. unfold cleanup.
      destruct (Command.After (Docker.cmd e)) as [after |];
        [| eexists; eexists; reflexivity].
      inversion Hafter as [| ? ? Hd _]; subst.
      destruct (Hdecl after dir [] t1 Hd) as [o [t2 E]].
      rewrite (bind_Ret _ _ _ _ _ E).
      destruct (Execution.OK out && negb (Execution.OK o));
        eexists; eexists; reflexivity. }
    assert (Hrest : forall t, exists out t',
               bind (runSteps W e req dir) (cleanup W e req dir) t
               = (Ret out, t')).
    { intros t1. destruct (Hruns t1) as [o [t2 E]].
      rewrite (bind_Ret _ _ _ _ _ E). apply Hclean. }
    unfold pipeline.
    destruct (Command.Before (Docker.cmd e)) as [before |]; [| apply Hrest].
    inversion Hbefore as [| ? ? Hd _]; subst.
    destruct (Hdecl before dir [] t Hd) as [o [t2 E]].
    rewrite (bind_Ret _ _ _ _ _ E).
    destruct (negb (Execution.OK o)); [eexists; eexists; reflexivity |].
    apply Hrest. }
  unfold Exec. unfold bind at 1. rewrite call_eq.
  destruct (MkdirTemp W t0) as [dir [err |]]; [eexists; reflexivity |].
  unfold defer.
  assert (Hstage : exists o t1,
             stage W e req dir (t0 ++ [EvMkdirTemp]) = (Ret o, t1)).
  { unfold stage. destruct (negb _); [| eexists; eexists; reflexivity].
    destruct (writeFiles_returns e dir (Request.Files req)
                (t0 ++ [EvMkdirTemp])) as [o Hres].
    destruct (writeFiles W e dir (Request.Files req) (t0 ++ [EvMkdirTemp]))
      as [r t1]. simpl in Hres. subst r. eexists. eexists. reflexivity. }
  destruct Hstage as [o [t1 Hstage]]. rewrite (bind_Ret _ _ _ _ _ Hstage).
  destruct o as [err |]; [eexists; reflexivity |].
  destruct (Hpipe dir t1) as [out [t2 E]]. rewrite E. eexists. reflexivity.
Qed.

(** ** More on the argument builder *)

Lemma dockerRunArgs_pinned b step req dir version :
  Step.Version step <> "" ->
  dockerRunArgs W b step (withVersion version req) dir
  = dockerRunArgs W b step req dir.
Proof.
  intros Hs. apply String.eqb_neq in Hs.
  unfold dockerRunArgs. rewrite Hs. reflexivity.
Qed.

(** X14.  When a step pins a version, the version the request asks for has
    no effect on the step: it is not validated and not used for the image,
    so the step makes the same calls and returns the same outcome for every
    requested version. *)
Theorem execStep_pinned_ignores_request_version e step req dir files t version :
  Step.Version step <> "" ->
  execStep W e step (withVersion version req) dir files t
  = execStep W e step req dir files t.
Proof.
  intros Hs. pose proof Hs as Hb. apply String.eqb_neq in Hb.
  unfold execStep, validateVersion, exec, buildArgs. rewrite Hb. simpl andb.
  destruct (Config.Boxes (Docker.cfg e) (Step.Box step)) as [b |];
    [rewrite (dockerRunArgs_pinned b step req dir version Hs) |]; reflexivity.
Qed.

Lemma flagged_length flag xs : List.length (flagged flag xs) = 2 * List.length xs.
Proof.
  unfold flagged. induction xs as [| x xs IH]; simpl; [reflexivity |].
  rewrite IH. lia.
Qed.

(** X15.  The argument list of [docker run] has the sixteen leading
    arguments and the image, one argument more for each of [--read-only]
    (box not writable) and [--interactive] (stdin delivery), two more for
    each of [--storage-opt] (storage set) and [--volume] (directory given),
    and two for every tmpfs mount, added capability, dropped capability and
    ulimit: every setting comes as a flag followed by its value. *)
Theorem dockerRunArgs_length box step req dir :
  List.length (dockerRunArgs W box step req dir)
  = 17
    + (if Box.Writable box then 0 else 1)
    + (if Step.Stdin step then 1 else 0)
    + (if Box.Storage box =? "" then 0 else 2)
    + (if dir =? "" then 0 else 2)
    + 2 * (List.length (Box.Tmpfs box) + List.length (Box.CapAdd box)
           + List.length (Box.CapDrop box) + List.length (Box.Ulimit box)).
Proof.
  rewrite dockerRunArgs_shape. rewrite !length_app, !flagged_length.
  destruct (Box.Writable box), (Step.Stdin step), (Box.Storage box =? ""),
    (dir =? ""); simpl; lia.
Qed.

(** ** Variables in commands *)

Lemma prefix_append (old post : string) : String.prefix old (old ++ post) = true.
Proof.
  induction old as [| c old IH]; simpl; [now destruct post |].
  destruct (ascii_dec c c); [exact IH | congruence].
Qed.

Lemma substring_all (s : string) : substring 0 (String.length s) s = s.
Proof. induction s as [| c s IH]; simpl; [reflexivity | now rewrite IH]. Qed.

Lemma substring_after (old post : string) :
  substring (String.length old)
    (String.length (old ++ post) - String.length old) (old ++ post) = post.
Proof.
  induction old as [| c old IH]; simpl.
  - rewrite Nat.sub_0_r. apply substring_all.
  - exact IH.
Qed.

Lemma Replace1_eq (s old new : string) :
  Replace1 s old new =
    if String.prefix old s then
      (new ++ substring (String.length old)
                (String.length s - String.length old) s)%string
    else
      match s with
      | EmptyString => EmptyString
      | String c s' => String c (Replace1 s' old new)
      end.
Proof. destruct s; reflexivity. Qed.

Lemma Replace1_here (old new post : string) :
  Replace1 (old ++ post) old new = (new ++ post)%string.
Proof. now rewrite Replace1_eq, prefix_append, substring_after. Qed.

Lemma Replace1_skip (c : ascii) (s old new : string) :
  String.prefix old (String c s) = false ->
  Replace1 (String c s) old new = String c (Replace1 s old new).
Proof. intros H. now rewrite Replace1_eq, H. Qed.

(** X16.  [expandVars] keeps the number of arguments and replaces, in each
    argument, the first occurrence of [:name] by the container name and
    nothing else: an argument [pre ++ ":name" ++ post] in which [:name] does
    not start within [pre] becomes [pre ++ name ++ post], whatever [post]
    holds (a second [:name] stays), and an argument in which [:name] starts
    nowhere is left as it is. *)
Theorem expandVars_replaces_first command name :
  List.length (expandVars command name) = List.length command
  /\ (forall i pre post,
        nth_error command i = Some (pre ++ ":name" ++ post)%string ->
        (forall k, k < String.length pre ->
           String.prefix ":name" (drop k (pre ++ ":name" ++ post)) = false) ->
        nth_error (expandVars command name) i
        = Some (pre ++ name ++ post)%string)
  /\ (forall i arg,
        nth_error command i = Some arg ->
        (forall k, String.prefix ":name" (drop k arg) = false) ->
        nth_error (expandVars command name) i = Some arg).
Proof.
  unfold expandVars. split; [apply length_map |]. split.
  - intros i pre post Hi Hfirst. rewrite nth_error_map, Hi.
    cbn [option_map]. f_equal.
    clear Hi. induction pre as [| c pre IH].
    + apply (Replace1_here ":name" name post).
    + change ((String c pre ++ ":name" ++ post)%string)
        with (String c (pre ++ ":name" ++ post)).
      rewrite Replace1_skip; [| exact (Hfirst 0 ltac:(simpl; lia))].
      change ((String c pre ++ name ++ post)%string)
        with (String c (pre ++ name ++ post)).
      f_equal. apply IH. intros k Hk.
      exact (Hfirst (S k) ltac:(simpl; lia)).
  - intros i arg Hi Hnone. rewrite nth_error_map, Hi.
    cbn [option_map]. f_equal.
    clear Hi. induction arg as [| c arg IH].
    + reflexivity.
    + rewrite Replace1_skip; [| exact (Hnone 0)].
      f_equal. apply IH. intros k. exact (Hnone (S k)).
Qed.

(** ** Successful executions *)

Lemma Exec_deferred e req t0 dir :
  MkdirTemp W t0 = (dir, None) ->
  Exec W e req t0 =
    defer (call (fun _ => tt) (EvRemoveAll dir))
      (bind (stage W e req dir)
         (fun err =>
            match err with
            | Some err =>
                ret (Fail W (Request.ID req)
                       (NewExecutionError "write files to temp dir"
                          (External err)))
            | None => pipeline W e req dir
            end)) (t0 ++ [EvMkdirTemp]).
Proof.
  intros Hdir. unfold Exec. unfold bind at 1. now rewrite call_eq, Hdir.
Qed.

(** X17.  Provided [Fail] never builds a successful execution: when [Exec]
    returns a successful execution, the scratch directory was made and the
    request files stored, the setup step (if any) succeeded, every run step
    of the command ran and succeeded, the cleanup step (if any) ran and
    succeeded, and the execution returned is the outcome of the last run
    step. *)
Theorem Exec_success e req t0 r t' :
  (forall id err, Execution.OK (Fail W id err) = false) ->
  Exec W e req t0 = (Ret r, t') ->
  Execution.OK r = true ->
  exists dir t1 t1' log t2,
    MkdirTemp W t0 = (dir, None)
    /\ stage W e req dir (t0 ++ [EvMkdirTemp]) = (Ret None, t1)
    /\ setupPassed W e req dir t1 t1'
    /\ runLog W e req dir t1' = (Ret log, t2)
    /\ Forall succeeded log
    /\ map fst log = Command.Steps (Docker.cmd e)
    /\ runSteps W e req dir t1' = (Ret r, t2)
    /\ match Command.After (Docker.cmd e) with
       | None => t' = t2 ++ [EvRemoveAll dir]
       | Some after =>
           exists afterOut t3,
             execStep W e after req dir [] t2 = (Ret afterOut, t3)
             /\ Execution.OK afterOut = true
             /\ t' = t3 ++ [EvRemoveAll dir]
       end.
Proof.
  intros HFail HE Hok.
  destruct (MkdirTemp W t0) as [dir [err |]] eqn:Hdir.
  { rewrite (Exec_mkdir_failed _ _ _ _ _ Hdir) in HE. inversion HE; subst.
    now rewrite HFail in Hok. }
  destruct (stage W e req dir (t0 ++ [EvMkdirTemp])) as [[[err |] | msg] t1]
    eqn:Hstage.
  { rewrite (Exec_deferred _ _ _ _ Hdir) in HE. unfold defer in HE.
    rewrite (bind_Ret _ _ _ _ _ Hstage) in HE. unfold ret in HE.
    inversion HE; subst. now rewrite HFail in Hok. }
  2:{ rewrite (Exec_deferred _ _ _ _ Hdir) in HE. unfold defer in HE.
      rewrite (bind_Panic _ _ _ _ _ Hstage) in HE. discriminate. }
  rewrite (Exec_unfold _ _ _ _ _ Hdir Hstage) in HE.
  assert (Hsetup : exists t1',
             setupPassed W e req dir t1 t1'
             /\ pipeline W e req dir t1
                = bind (runSteps W e req dir) (cleanup W e req dir) t1').
  { unfold setupPassed. unfold pipeline in *.
    destruct (Command.Before (Docker.cmd e)) as [before |];
      [| exists t1; now split].
    destruct (execStep W e before req dir [] t1) as [[o | msg] tb] eqn:Eb.
    - rewrite (bind_Ret _ _ _ _ _ Eb) in *.
      destruct (Execution.OK o) eqn:Ho; simpl in *.
      + exists tb. split; [now exists o | reflexivity].
      + unfold ret in HE. simpl in HE. inversion HE; subst. congruence.
    - rewrite (bind_Panic _ _ _ _ _ Eb) in HE. discriminate. }
  destruct Hsetup as [t1' [Hsetup Hpipe]]. rewrite Hpipe in HE.
  destruct (runSteps W e req dir t1') as [[out | msg] t2] eqn:Hrun.
  2:{ rewrite (bind_Panic _ _ _ _ _ Hrun) in HE. discriminate. }
  rewrite (bind_Ret _ _ _ _ _ Hrun) in HE.
  destruct (runSteps_runLog _ _ _ _ _ _ Hrun) as [log Hlog].
  destruct (runLog_runSteps _ _ _ _ _ _ Hlog) as [out' [Hrun' [Hbad Hgood]]].
  rewrite Hrun in Hrun'. inversion Hrun'; subst out'. clear Hrun'.
  assert (Hfinal : Execution.OK out = true -> Forall succeeded log).
  { intros Hout. apply Forall_forall. intros [s o] Hin.
    destruct (Execution.OK o) eqn:Ho; [exact Ho |].
    unfold succeeded. simpl. now rewrite (Hbad s o Hin Ho). }
  unfold cleanup in HE.
  destruct (Command.After (Docker.cmd e)) as [after |].
  - destruct (execStep W e after req dir [] t2) as [[afterOut | msg] t3] eqn:Ea.
    2:{ rewrite (bind_Panic _ _ _ _ _ Ea) in HE. discriminate. }
    rewrite (bind_Ret _ _ _ _ _ Ea) in HE.
    destruct (Execution.OK out) eqn:Hout, (Execution.OK afterOut) eqn:Hafter;
      simpl in HE; unfold ret in HE; simpl in HE; inversion HE; subst;
      try congruence.
    destruct (Hgood (Hfinal eq_refl)) as [_ Hsteps].
    exists dir, t1, t1', log, t2. repeat split; auto.
    exists afterOut, t3. repeat split; auto.
  - unfold ret in HE. simpl in HE. inversion HE; subst.
    destruct (Hgood (Hfinal Hok)) as [_ Hsteps].
    exists dir, t1, t1', log, t2. repeat split; auto.
Qed.

(** X18.  A step whose action is not [run] never reads the box, the
    directory or the requested version when it builds its arguments, and
    never panics there: an [exec] step gets
    [exec --interactive --user <user> <box name>] followed by the expanded
    command, and a step with any other action gets the harmless
    [version] followed by the expanded command. *)
Theorem buildArgs_without_box step req :
  Step.Action step <> actionRun ->
  exists args,
    (forall box dir version t,
       buildArgs W box step (withVersion version req) dir t = (Ret args, t))
    /\ (Step.Action step = actionExec ->
        args = [ "exec"; "--interactive"; "--user"; Step.User step;
                 Step.Box step ]
               ++ expandVars (Step.Command step) (Request.ID req))
    /\ (Step.Action step <> actionExec ->
        args = "version" :: expandVars (Step.Command step) (Request.ID req)).
Proof.
  intros Hrun. apply String.eqb_neq in Hrun.
  destruct (Step.Action step =? actionExec) eqn:Hexec.
  - exists (dockerExecArgs step
            ++ expandVars (Step.Command step) (Request.ID req)).
    split; [| split].
    + intros box dir version t. unfold buildArgs, bind, ret.
      rewrite Hrun, Hexec. reflexivity.
    + intros _. reflexivity.
    + intros H. apply String.eqb_eq in Hexec. contradiction.
  - exists ("version" :: expandVars (Step.Command step) (Request.ID req)).
    split; [| split].
    + intros box dir version t. unfold buildArgs, bind, ret.
      rewrite Hrun, Hexec. reflexivity.
    + intros H. apply String.eqb_neq in Hexec. contradiction.
    + intros _. reflexivity.
Qed.

(** ** Writes before copies *)















(** ** Orders of iteration *)

(** C9, as the code has it.  The [Files] mapping is a Go map and has no
    iteration order of its own.  [writeFiles] writes the files in the order
    in which its iteration yields them, each entry of the mapping at most
    once, and all of them when no write fails.  The standard input of a
    stdin-delivery step is the contents of the files, each once, appended in
    the order in which the iteration of [filesReader] yields them.  The two
    orders are permutations of the mapping's entries; they are the same
    when the mapping holds at most one file. *)
Theorem files_iteration_orders e dir m order1 order2 t :
  iteration m order1 ->
  iteration m order2 ->
  (exists k rest,
     snd (writeFiles W e dir order1 t)
     = t ++ map (stagedEvent W e dir) (firstn k order1)
     /\ Permutation (firstn k order1 ++ rest) m
     /\ (fst (writeFiles W e dir order1 t) = Ret None ->
         Permutation (map (stagedEvent W e dir) (firstn k order1))
           (map (stagedEvent W e dir) m)))
  /\ filesReader order2 = fold_right String.append "" (map snd order2)
  /\ Permutation (map snd order2) (map snd m)
  /\ (forall box step req args,
        Step.Stdin step = true ->
        buildArgs W box step req dir t = (Ret args, t) ->
        exists res more,
          exec W box step req dir order2 t
          = (Ret res,
             t ++ EvRun (Step.Timeout step) (Step.NOutput step)
                    (Some (fold_right String.append "" (map snd order2)))
                    (Request.ID req) "docker" args :: more))
  /\ (List.length m <= 1 ->
      order1 = m /\ order2 = m
      /\ filesReader order2 = fold_right String.append "" (map snd order1)).
Proof.
  unfold iteration. intros H1 H2. split; [| split; [| split; [| split]]].
  - destruct (writeFiles_trace e dir order1 t) as [k [_ [Htr Hall]]].
    exists k, (skipn k order1). split; [exact Htr |]. split.
    + now rewrite firstn_skipn.
    + intros Hok. rewrite (Hall Hok), firstn_all. now apply Permutation_map.
  - apply filesReader_concat.
  - now apply Permutation_map.
  - intros box step req args Hstdin Hargs.
    destruct (exec_trace _ _ _ _ order2 _ _ _ Hargs) as [res [more E]].
    exists res, more. rewrite E. unfold runEvent, stdinOf.
    now rewrite Hstdin, filesReader_concat.
  - intros Hlen.
    assert (Hsame : forall order, Permutation order m -> order = m).
    { intros order Hp. apply Permutation_sym in Hp.
      destruct m as [| x [| y m']].
      - now apply Permutation_nil.
      - now apply Permutation_length_1_inv.
      - simpl in Hlen. lia. }
    rewrite (Hsame _ H1), (Hsame _ H2).
    split; [reflexivity |]. split; [reflexivity | apply filesReader_concat].
Qed.

End Properties.

(** * The engine on concrete requests *)

(** A [run] step that hangs: timeout failure and one [docker kill]. *)
Lemma execStep_timeout_witness :
  execStep world plain sleepStep (requestOf "" []) tmp [] []
  = (Ret (Fail_spec "abc123" ErrTimeout),
     copied ++ [ runEvent sleepStep (requestOf "" []) []
                   (runArgs sleepStep (requestOf "" []));
                 EvGo "docker" ["kill"; "abc123"] ]).
Proof.
  edestruct (execStep_timeout world plain sleepStep (requestOf "" []) tmp [] [])
    as [kills [_ [Hstep [Hkill _]]]];
    [reflexivity | reflexivity | reflexivity | reflexivity | reflexivity |].
  rewrite Hstep. rewrite (proj1 Hkill eq_refl). reflexivity.
Defined.

(** An [exec] step that hangs: the same timeout failure, no kill. *)
Example execStep_timeout_exec :
  execStep world plain attachStep (requestOf "" []) tmp [] []
  = (Ret (Fail_spec "abc123" ErrTimeout),
     copied ++ [ EvRun 1 4096 None "abc123" "docker"
                   ["exec"; "--interactive"; "--user"; "sandbox"; "python";
                    "sleep"; "60"] ]).
Proof. reflexivity. Qed.

(** A process that exits with status 1 and writes [boom] to its error
    stream. *)
Lemma execStep_exit_nonzero_witness :
  exec world (Some python) boomStep (requestOf "" []) tmp [] copied
  = (Ret ("", "boom", Some (errorString "boom (exit status 1)")),
     copied ++ [ runEvent boomStep (requestOf "" []) []
                   (runArgs boomStep (requestOf "" [])) ])
  /\ execStep world plain boomStep (requestOf "" []) tmp [] []
     = (Ret (Fail_spec "abc123" (errorString "boom (exit status 1)")),
        copied ++ [ runEvent boomStep (requestOf "" []) []
                      (runArgs boomStep (requestOf "" [])) ])
  /\ isExecutionError (errorString "boom (exit status 1)") = false.
Proof.
  edestruct (execStep_exit_nonzero world plain boomStep (requestOf "" []) tmp [] [])
    as [err' [Hexec [Hstep [Hkind [Hwrap _]]]]];
    [ reflexivity | reflexivity | reflexivity | reflexivity
    | discriminate | reflexivity |].
  rewrite (Hwrap ltac:(discriminate)) in Hexec, Hstep.
  split; [exact Hexec | split; [exact Hstep | reflexivity]].
Defined.

(** A process that exits with status 1 and writes nothing. *)
Lemma exec_exit_error_wrapping_witness :
  fst (exec world (Some python) falseStep (requestOf "" []) tmp [] copied)
  = Ret ("", "", Some (External exitStatus1)).
Proof.
  edestruct (exec_exit_error_wrapping world (Some python) falseStep
               (requestOf "" []) tmp [] copied)
    as [err' [Hexec [Hraw _]]];
    [reflexivity | reflexivity | discriminate | reflexivity |].
  rewrite Hexec, (proj1 Hraw eq_refl). reflexivity.
Defined.

(** Version gating on a box that supports 1.0 and 2.0. *)
Lemma execStep_version_gate_witness :
  execStep world plain trueStep (requestOf "3.0" []) tmp [] []
  = (Ret (Fail_spec "abc123"
            (errorString "box python does not support version 3.0")), [])
  /\ validateVersion (Some python) trueStep (requestOf "2.0" []) [] = (Ret None, [])
  /\ validateVersion (Some python) trueStep (requestOf "" []) [] = (Ret None, []).
Proof.
  split; [| split].
  - apply (execStep_version_gate world plain trueStep (requestOf "3.0" [])
             tmp [] [] python eq_refl eq_refl);
      [discriminate | reflexivity].
  - apply (execStep_version_gate world plain trueStep (requestOf "2.0" [])
             tmp [] [] python eq_refl eq_refl).
    right. reflexivity.
  - apply (execStep_version_gate world plain trueStep (requestOf "" [])
             tmp [] [] python eq_refl eq_refl).
    left. reflexivity.
Defined.

(** C5 as stated fails: the version mismatch is not reported as an
    infrastructure-class error. *)
Lemma version_error_not_infrastructure :
  ~ (forall (W : World) e step req dir files t box,
       Config.Boxes (Docker.cfg e) (Step.Box step) = Some box ->
       Step.Version step = "" ->
       Request.Version req <> "" ->
       Contains (Box.Versions box) (Request.Version req) = false ->
       exists err,
         execStep W e step req dir files t = (Ret (Fail W (Request.ID req) err), t)
         /\ isExecutionError err = true).
Proof.
  intros H.
  destruct (H world plain trueStep (requestOf "3.0" []) tmp [] [] python
              eq_refl eq_refl ltac:(discriminate) eq_refl) as [err [E Hkind]].
  vm_compute in E. inversion E; subst. discriminate.
Qed.

(** The argument list of a [run] step on the read-only [python] box. *)
Lemma dockerRunArgs_image_and_readonly_witness :
  last (dockerRunArgs world python trueStep (requestOf "2.0" []) tmp) ""
  = "codapi/python:2.0"
  /\ In "--read-only" (dockerRunArgs world python trueStep (requestOf "2.0" []) tmp)
  /\ ~ In "--read-only"
         (dockerRunArgs world (withWritable true python) trueStep
            (requestOf "2.0" []) tmp).
Proof.
  assert (Hclean : forall w,
             ~ In "--read-only"
                 (runValues world (withWritable w python) trueStep
                    (requestOf "2.0" []) tmp)).
  { intros w Hin. simpl in Hin.
    repeat (destruct Hin as [Hin | Hin]; [discriminate |]). exact Hin. }
  split; [| split].
  - apply (dockerRunArgs_image_and_readonly world python trueStep
             (requestOf "2.0" []) tmp); [reflexivity | discriminate].
  - apply (dockerRunArgs_image_and_readonly world python trueStep
             (requestOf "2.0" []) tmp); [exact (Hclean false) | reflexivity].
  - intros Hin.
    apply (dockerRunArgs_image_and_readonly world (withWritable true python)
             trueStep (requestOf "2.0" []) tmp) in Hin;
      [discriminate | exact (Hclean true)].
Defined.

Lemma Exec_cleanup_precedence_witness :
  fst (Exec world cleanupFails (requestOf "" source) [])
  = Ret (Fail_spec "abc123" (External exitStatus1))
  /\ snd (Exec world cleanupFails (requestOf "" source) [])
     = staged
       ++ stepEvents trueStep (requestOf "" source) source
            (runArgs trueStep (requestOf "" source))
       ++ stepEvents trueStep (requestOf "" source) []
            (runArgs trueStep (requestOf "" source))
       ++ stepEvents falseStep (requestOf "" source) []
            (runArgs falseStep (requestOf "" source))
       ++ [EvRemoveAll tmp]
  /\ fst (Exec world runFails (requestOf "" source) [])
     = Ret (Fail_spec "abc123" (errorString "boom (exit status 1)"))
  /\ snd (Exec world runFails (requestOf "" source) [])
     = staged
       ++ stepEvents boomStep (requestOf "" source) source
            (runArgs boomStep (requestOf "" source))
       ++ stepEvents falseStep (requestOf "" source) []
            (runArgs falseStep (requestOf "" source))
       ++ [EvRemoveAll tmp].
Proof.
  edestruct (Exec_cleanup_precedence world cleanupFails (requestOf "" source) [])
    as [Hgood _];
    [ reflexivity | reflexivity | reflexivity | reflexivity
    | reflexivity | reflexivity |].
  destruct Hgood as [_ Hgood]; [repeat (constructor; try reflexivity) |].
  edestruct (Exec_cleanup_precedence world runFails (requestOf "" source) [])
    as [_ Hbad];
    [ reflexivity | reflexivity | reflexivity | reflexivity
    | reflexivity | reflexivity |].
  rewrite (Hgood eq_refl).
  rewrite (Hbad boomStep (Fail_spec "abc123" (errorString "boom (exit status 1)"))
             ltac:(now left) eq_refl).
  repeat split.
Defined.

(** A setup step that fails: nothing but the removal of the temp directory
    follows it. *)
Lemma Exec_setup_failure_witness :
  Exec world setupFails (requestOf "" source) []
  = (Ret (Fail_spec "abc123" (External exitStatus1)),
     staged
     ++ stepEvents falseStep (requestOf "" source) []
          (runArgs falseStep (requestOf "" source))
     ++ [EvRemoveAll tmp]).
Proof.
  rewrite (Exec_setup_failure world setupFails (requestOf "" source) []
             tmp staged falseStep
             (Fail_spec "abc123" (External exitStatus1))
             (staged
              ++ stepEvents falseStep (requestOf "" source) []
                   (runArgs falseStep (requestOf "" source))));
    reflexivity.
Defined.


Example Exec_write_then_copy :
  snd (Exec world plain (requestOf "" source) [])
  = [ EvMkdirTemp;
      EvWriteFile "/tmp/codapi/main.py" "print(1)" 292;
      EvCopyFiles "/opt/codapi/python/*" "/tmp/codapi";
      runEvent trueStep (requestOf "" source) source
        (runArgs trueStep (requestOf "" source));
      EvRemoveAll "/tmp/codapi" ].
Proof. reflexivity. Qed.

(** C8 as stated fails: both files of [clash] are staged under the same
    path. *)
Lemma same_path_staged_twice :
  ~ (forall (W : World) e dir files t new,
       NoDup (map fst files) ->
       snd (writeFiles W e dir files t) = t ++ new ->
       NoDup (writtenPaths new)).
Proof.
  intros H.
  specialize (H world plain tmp clash []
                [ EvWriteFile "/tmp/codapi/main.py" "print(1)" 292;
                  EvWriteFile "/tmp/codapi/main.py" "print(2)" 292 ]).
  assert (Hnames : NoDup (map fst clash)).
  { repeat constructor; simpl; intuition discriminate. }
  specialize (H Hnames eq_refl). simpl in H.
  inversion H as [| ? ? Hnotin _]. apply Hnotin. now left.
Qed.

(** At [clash] the file with the empty name is written under the
    entry-point filename; at [sources] no path is used twice. *)
Lemma writeFiles_entry_and_distinct_paths_witness :
  (exists new,
     snd (writeFiles world plain tmp clash []) = [] ++ new
     /\ In (EvWriteFile "/tmp/codapi/main.py" "print(1)" 292) new)
  /\ (exists new,
        snd (writeFiles world plain tmp sources []) = [] ++ new
        /\ NoDup (writtenPaths new)
        /\ In (EvWriteFile "/tmp/codapi/main.py" "print(1)" 292) new).
Proof.
  split.
  - destruct (writeFiles_entry_and_distinct_paths world plain tmp clash [])
      as [new [Htr [_ [Hentry _]]]].
    exists new. split; [exact Htr |].
    apply (Hentry eq_refl "print(1)"). now left.
  - destruct (writeFiles_entry_and_distinct_paths world plain tmp sources [])
      as [new [Htr [_ [Hentry Hnodup]]]].
    exists new. split; [exact Htr |]. split.
    + apply Hnodup.
      * repeat constructor; simpl; intuition discriminate.
      * simpl. intros _ [H | [H | []]]; discriminate.
      * simpl. intros a b [<- | [<- | []]] [<- | [<- | []]] H;
          try reflexivity; discriminate.
    + apply (Hentry eq_refl "print(1)"). now left.
Defined.

(** Where a file that is there cannot be written over, the second file of
    [clash] is still sent to the same path, and the failure of that write is
    what [writeFiles] returns. *)
Example writeFiles_clash_strict :
  writeFiles strictWorld plain tmp clash []
  = (Ret (Some permissionDenied),
     [ EvWriteFile "/tmp/codapi/main.py" "print(1)" 292;
       EvWriteFile "/tmp/codapi/main.py" "print(2)" 292 ]).
Proof. reflexivity. Qed.

Example Itoa_decimal : Itoa 0 = "0" /\ Itoa 512 = "512" /\ Itoa (-7) = "-7".
Proof. repeat split. Qed.

Example expandVars_first_occurrence :
  expandVars ["echo"; "x:name:name"; ":nam"] "abc123"
  = ["echo"; "xabc123:name"; ":nam"].
Proof. reflexivity. Qed.

(** A run step on a box the configuration does not declare panics when the
    arguments are built; the temp directory is removed all the same. *)
Example Exec_unknown_box :
  Exec world
    {| Docker.cfg := {| Config.Boxes := fun _ => None |};
       Docker.cmd := Docker.cmd plain |}
    (requestOf "" source) []
  = (Panic "nil pointer dereference", staged ++ [EvRemoveAll tmp]).
Proof. reflexivity. Qed.

(** * More runs of the engine *)

(** The second file of [clash] cannot be written: no step runs. *)
Lemma Exec_write_failure_witness :
  Exec strictWorld plain (requestOf "" clash) []
  = (Ret (Fail_spec "abc123"
            (ExecutionError "write files to temp dir" (External permissionDenied))),
     [ EvMkdirTemp;
       EvWriteFile "/tmp/codapi/main.py" "print(1)" 292;
       EvWriteFile "/tmp/codapi/main.py" "print(2)" 292;
       EvRemoveAll tmp ]).
Proof.
  edestruct (Exec_write_failure strictWorld plain (requestOf "" clash) [])
    as [HE _]; [reflexivity | reflexivity |].
  rewrite HE. reflexivity.
Defined.

Lemma Exec_no_entry_no_writes_witness :
  exists new,
    snd (Exec world noEntry (requestOf "" source) []) = [] ++ new
    /\ forallb (fun ev => negb (isWrite ev)) new = true.
Proof. apply (Exec_no_entry_no_writes world noEntry); reflexivity. Defined.

(** The first of two run steps fails: the second does not run. *)
Lemma runSteps_short_circuit_witness :
  exists done step out,
    [(boomStep, Fail_spec "abc123" (errorString "boom (exit status 1)"))]
    = done ++ [(step, out)]
    /\ runSteps world runFails (requestOf "" source) tmp staged
       = (Ret out,
          staged ++ stepEvents boomStep (requestOf "" source) source
                      (runArgs boomStep (requestOf "" source))).
Proof.
  edestruct (runSteps_short_circuit world runFails (requestOf "" source) tmp staged)
    as [done [step [out [Hlog [_ [_ [Hrun _]]]]]]]; [reflexivity |].
  exists done, step, out. split; [exact Hlog | exact Hrun].
Defined.

Lemma Exec_no_steps_panics_witness :
  Exec world noSteps (requestOf "" source) []
  = (Panic "slice bounds out of range [1:0]", staged ++ [EvRemoveAll tmp]).
Proof.
  apply (Exec_no_steps_panics world noSteps (requestOf "" source) [] tmp staged);
    reflexivity.
Defined.

(** The [docker] binary is missing. *)
Lemma execStep_other_error_witness :
  execStep noDockerWorld plain trueStep (requestOf "" []) tmp [] []
  = (Ret (Fail_spec "abc123" (ExecutionError "execute code" (External cannotStart))),
     copied ++ [ runEvent trueStep (requestOf "" []) []
                   (runArgs trueStep (requestOf "" [])) ]).
Proof.
  edestruct (execStep_other_error noDockerWorld plain trueStep (requestOf "" [])
               tmp [] [])
    as [_ Hstep];
    [ reflexivity | reflexivity | reflexivity | reflexivity
    | discriminate | reflexivity |].
  exact Hstep.
Defined.

Lemma execStep_success_witness :
  exists t1 args,
    copied ++ [runEvent trueStep (requestOf "" []) []
                 (runArgs trueStep (requestOf "" []))]
    = t1 ++ [runEvent trueStep (requestOf "" []) [] args]
    /\ runAnswer world t1 trueStep (requestOf "" []) [] args = ("ok", "", None).
Proof.
  edestruct (execStep_success world plain trueStep (requestOf "" []) tmp [] [])
    as [t1 [args [Htr [_ [Hrun _]]]]];
    [intros; reflexivity | reflexivity | reflexivity |].
  exists t1, args. split; [exact Htr | exact Hrun].
Defined.

Lemma exec_kill_iff_witness :
  exists res kills,
    exec world (Some python) sleepStep (requestOf "" []) tmp [] copied
    = (Ret res,
       copied ++ runEvent sleepStep (requestOf "" []) []
                   (runArgs sleepStep (requestOf "" [])) :: kills)
    /\ kills <> [].
Proof.
  destruct (exec_kill_iff world (Some python) sleepStep (requestOf "" []) tmp []
              copied (runArgs sleepStep (requestOf "" [])) eq_refl)
    as [res [kills [HE [_ Hiff]]]].
  exists res, kills. split; [exact HE |].
  apply Hiff. split; [reflexivity |].
  exists "", "", signalKilled. split; reflexivity.
Defined.

Lemma execStep_copy_failure_witness :
  execStep noCopyWorld plain trueStep (requestOf "" []) tmp [] []
  = (Ret (Fail_spec "abc123"
            (ExecutionError "copy files to temp dir" (External permissionDenied))),
     copied).
Proof.
  edestruct (execStep_copy_failure noCopyWorld plain trueStep (requestOf "" [])
               tmp [] [])
    as [Hstep _]; [reflexivity | reflexivity |].
  exact Hstep.
Defined.

Lemma Exec_returns_witness :
  exists out, fst (Exec world cleanupFails (requestOf "" source) []) = Ret out.
Proof.
  apply (Exec_returns world cleanupFails).
  - discriminate.
  - repeat constructor; discriminate.
Defined.

Lemma execStep_pinned_ignores_request_version_witness :
  execStep world plain pinnedStep (requestOf "3.0" []) tmp [] []
  = execStep world plain pinnedStep (requestOf "" []) tmp [] [].
Proof.
  apply (execStep_pinned_ignores_request_version world plain pinnedStep
           (requestOf "" []) tmp [] [] "3.0").
  discriminate.
Defined.

(** The pinned step runs the pinned image whatever the request asks for. *)
Example execStep_pinned_image :
  snd (execStep world plain pinnedStep (requestOf "3.0" []) tmp [] [])
  = copied ++ [ EvRun 1 4096 None "abc123" "docker"
                  [ "run"; "--rm"; "--name"; "abc123"; "--runtime"; "runc";
                    "--cpus"; "1"; "--memory"; "64m"; "--network"; "none";
                    "--pids-limit"; "64"; "--user"; "sandbox"; "--read-only";
                    "--volume"; "/tmp/codapi:/sandbox:ro";
                    "--tmpfs"; "/tmp:rw,size=16m"; "--cap-drop"; "all";
                    "--ulimit"; "nofile=96"; "codapi/python:1.0"; "true" ] ].
Proof. reflexivity. Qed.

(** The second [:name] of an argument stays. *)
Lemma expandVars_replaces_first_witness :
  nth_error (expandVars ["sh"; "-c"; "echo :name > /:name"] "abc123") 2
  = Some "echo abc123 > /:name".
Proof.
  apply (proj1 (proj2 (expandVars_replaces_first
                         ["sh"; "-c"; "echo :name > /:name"] "abc123"))
           2 "echo " " > /:name"); [reflexivity |].
  intros k Hk. do 5 (destruct k as [| k]; [reflexivity |]).
  simpl in Hk. lia.
Defined.

Lemma Exec_success_witness :
  exists log,
    Forall succeeded log
    /\ map fst log = [trueStep; trueStep]
    /\ fst (Exec world allGood (requestOf "" source) [])
       = Ret {| Execution.ID := "abc123";
                Execution.OK := true;
                Execution.Stdout := "ok";
                Execution.Stderr := "";
                Execution.Err := None |}.
Proof.
  edestruct (Exec_success world allGood (requestOf "" source) [])
    as [dir [t1 [t1' [log [t2 [_ [_ [_ [_ [Hall [Hsteps _]]]]]]]]]]];
    [intros; reflexivity | reflexivity | reflexivity |].
  exists log. split; [exact Hall |]. split; [exact Hsteps | reflexivity].
Defined.

(** An [exec] step on a box that is not declared. *)
Lemma buildArgs_without_box_witness :
  exists args,
    buildArgs world None attachStep (requestOf "2.0" []) "" []
    = (Ret args, [])
    /\ args = ["exec"; "--interactive"; "--user"; "sandbox"; "python";
               "sleep"; "60"].
Proof.
  destruct (buildArgs_without_box world attachStep (requestOf "" [])
              ltac:(discriminate)) as [args [Hall [Hexec _]]].
  exists args. split; [exact (Hall None "" "2.0" []) | exact (Hexec eq_refl)].
Defined.

(** * Two iterations over one map *)

(** C9 as stated fails: the iteration of [writeFiles] may yield [a.py]
    before [b.py] while the iteration of [filesReader] yields [b.py] before
    [a.py], and then the standard input is not the contents in the order in
    which the files were written. *)
Lemma write_and_stdin_orders_differ :
  ~ (forall (W : World) e dir (m order1 order2 : Files) t new,
       NoDup (map fst m) ->
       iteration m order1 ->
       iteration m order2 ->
       writeFiles W e dir order1 t = (Ret None, t ++ new) ->
       filesReader order2 = fold_right String.append "" (writtenContents new)).
Proof.
  intros H.
  specialize (H world plain tmp twoFiles twoFiles twoFilesBack []
                [ EvWriteFile "/tmp/codapi/a.py" "1" 292;
                  EvWriteFile "/tmp/codapi/b.py" "2" 292 ]).
  assert (Hnames : NoDup (map fst twoFiles)).
  { repeat constructor; simpl; intuition discriminate. }
  specialize (H Hnames (Permutation_refl _) (perm_swap _ _ _) eq_refl).
  discriminate.
Qed.

Lemma files_iteration_orders_witness :
  (exists k rest,
     snd (writeFiles world plain tmp twoFiles [])
     = [] ++ map (stagedEvent world plain tmp) (firstn k twoFiles)
     /\ Permutation (firstn k twoFiles ++ rest) twoFiles)
  /\ filesReader twoFilesBack = "21"
  /\ Permutation (map snd twoFilesBack) ["1"; "2"].
Proof.
  destruct (files_iteration_orders world plain tmp twoFiles twoFiles
              twoFilesBack [] (Permutation_refl _) (perm_swap _ _ _))
    as [[k [rest [Htr [Hperm _]]]] [Hcat [Hcontents _]]].
  split; [| split].
  - exists k, rest. split; [exact Htr | exact Hperm].
  - rewrite Hcat. reflexivity.
  - exact Hcontents.
Defined.

(** The two files of [twoFiles], yielded backwards, are both written. *)
Lemma writeFiles_first_error_witness :
  exists new,
    snd (writeFiles world plain tmp twoFilesBack []) = [] ++ new
    /\ Permutation new (map (stagedEvent world plain tmp) twoFiles).
Proof.
  destruct (writeFiles_first_error world plain tmp twoFiles twoFilesBack []
              (perm_swap _ _ _)) as [o [Hres Ho]].
  assert (Ho' : o = None) by (inversion Hres; reflexivity).
  subst o. destruct Ho as [new [Htr [Hperm _]]].
  exists new. split; [exact Htr | exact Hperm].
Defined.
